(** * OmniTutor: the completion routing and resilience layer

    A shallow embedding of the hooks [useAI] (src/hooks/useAI.ts),
    [useGemini] (src/hooks/useGemini.ts) and of the prompt builder
    [getSystemInstruction], with the properties of the router, of the
    retry loop, of the history mappings and of the prompt builders. *)

From Stdlib Require Import String Ascii List Bool Arith ZArith Lia.
From Equations Require Import Equations.
Import ListNotations.
Local Open Scope list_scope.
Local Open Scope string_scope.

(** ** JavaScript strings *)

Module Js.

(** [s.includes(sub)] *)
Fixpoint includes (sub s : string) : bool :=
  String.prefix sub s ||
  match s with
  | EmptyString => false
  | String _ s' => includes sub s'
  end.

(** [s.split(',')]: the pieces of [s] between the commas, in order;
    the result always has at least one piece. *)
Fixpoint split_comma (s : string) : list string :=
  match s with
  | EmptyString => [EmptyString]
  | String c s' =>
      if Ascii.eqb c ","%char then EmptyString :: split_comma s'
      else match split_comma s' with
           | piece :: pieces => String c piece :: pieces
           | [] => [String c EmptyString]
           end
  end.

(** Truthiness of a possibly undefined string: [undefined] and the
    empty string are falsy. *)
Definition truthy (v : option string) : bool :=
  match v with
  | Some EmptyString => false
  | Some _ => true
  | None => false
  end.

(** [v || d] for a possibly undefined string [v] and a string [d]. *)
Definition or_else (v : option string) (d : string) : string :=
  match v with
  | Some EmptyString => d
  | Some s => s
  | None => d
  end.

(** A thrown value, as far as the hooks look at it: its [message] and
    its [status] properties, either of which may be undefined. *)
Record Error := { message : option string; status : option Z }.

(** [new Error(msg)] *)
Definition new_Error (msg : string) : Error :=
  {| message := Some msg; status := None |}.

End Js.

(** ** The data model (types.ts) *)

(** Modelled from the spec: types.ts is not among the sources.  [Role]
    has the member [USER], the only one the hooks name; the spec calls
    the other one ASSISTANT. *)
Inductive Role := USER | ASSISTANT.

(** Modelled from the spec: the [Subject] enum of types.ts.  The hooks
    name MATH, PHYSICS, CHEMISTRY and CODING; [OTHER] stands for every
    further member of the closed set. *)
Inductive Subject := MATH | PHYSICS | CHEMISTRY | CODING | OTHER (tag : nat).

Inductive AttachmentType := image | text.

Module Attachment.
(** [{ content: string, type: 'image' | 'text', mimeType?: string }] *)
Record t := { content : string; type : AttachmentType; mimeType : option string }.
End Attachment.

Module Message.
(** Modelled from the spec: the [Message] type of types.ts, with the
    three properties the hooks read. *)
Record t := { role : Role; content : string; attachment : option Attachment.t }.
End Message.

(** ** What is sent to the providers *)

Module GroqMessage.
Record t := { role : string; content : string }.
End GroqMessage.

Module GroqRequest.
(** The argument of [groq.chat.completions.create]; the temperature
    (0.7 everywhere) is left out. *)
Record t := { messages : list GroqMessage.t; model : string; max_tokens : Z }.
End GroqRequest.

Module GeminiTurn.
(** [{ role, parts: [{ text }] }]: a turn of the Gemini history; [parts]
    holds the text of each part. *)
Record t := { role : string; parts : list string }.
End GeminiTurn.

Module GeminiModel.
(** The argument of [genAI.getGenerativeModel]. *)
Record t := { model : string; systemInstruction : string }.
End GeminiModel.

Module Chat.
(** A chat session: the model it was started on and the argument of
    [model.startChat]. *)
Record t := { model : GeminiModel.t; history : list GeminiTurn.t; maxOutputTokens : Z }.
End Chat.

(** A part of a [generateContent] prompt. *)
Inductive Part :=
| TextPart (text : string)
| InlineData (data mimeType : string).

(** ** Effects: the React state, the trace of a call, completions *)

(** The state the hook exposes: [isLoading], [error], [statusMessage]. *)
Record ReactState := {
  isLoading : bool;
  error : option string;
  statusMessage : option string
}.

(** What a call does, in the order it does it: the state setters it
    calls, the provider requests it makes and the timers it waits for.
    Console output is not recorded. *)
Inductive Event :=
| SetIsLoading (b : bool)
| SetError (e : option string)
| SetStatusMessage (s : option string)
| GroqCreate (req : GroqRequest.t)
| GenerateContent (model : GeminiModel.t) (promptParts : list Part)
| ChatSendMessage (chat : Chat.t) (msg : string)
| Sleep (ms : Z).

Record World := { react : ReactState; trace : list Event }.

(** A call starts on the state the previous one left, with an empty trace. *)
Definition start (st : ReactState) : World := {| react := st; trace := [] |}.

(** How a JavaScript block ends: normally with a value, or by a throw. *)
Inductive Completion (A : Type) :=
| Normal (a : A)
| Throw (e : Js.Error).
Arguments Normal {A} a.
Arguments Throw {A} e.

(** A block of the hook: it runs on a world and leaves a world. *)
Definition M (A : Type) : Type := World -> Completion A * World.

Definition ret {A} (a : A) : M A := fun w => (Normal a, w).

Definition throw {A} (e : Js.Error) : M A := fun w => (Throw e, w).

Definition bind {A B} (m : M A) (k : A -> M B) : M B :=
  fun w =>
    match m w with
    | (Normal a, w') => k a w'
    | (Throw e, w') => (Throw e, w')
    end.

(** [try { body } catch (e) { handler }] *)
Definition try_catch {A} (body : M A) (handler : Js.Error -> M A) : M A :=
  fun w =>
    match body w with
    | (Normal a, w') => (Normal a, w')
    | (Throw e, w') => handler e w'
    end.

(** [try { body } finally { fin }]: [fin] runs on every completion of
    [body], and the completion of [body] stands unless [fin] throws. *)
Definition try_finally {A} (body : M A) (fin : M unit) : M A :=
  fun w =>
    match body w with
    | (c, w') =>
        match fin w' with
        | (Normal _, w'') => (c, w'')
        | (Throw e, w'') => (Throw e, w'')
        end
    end.

Declare Scope hook_scope.
Delimit Scope hook_scope with hook.
Notation "x <- m ;; k" := (bind m (fun x => k))
  (at level 61, m at next level, right associativity) : hook_scope.
Notation "m ;; k" := (bind m (fun _ => k))
  (at level 61, right associativity) : hook_scope.

(** The effects, as changes of the world. *)
Definition log (ev : Event) (w : World) : World :=
  {| react := react w; trace := (trace w ++ [ev])%list |}.

Definition set_isLoading (b : bool) (w : World) : World :=
  {| react := {| isLoading := b; error := error (react w);
                 statusMessage := statusMessage (react w) |};
     trace := (trace w ++ [SetIsLoading b])%list |}.

Definition set_error (e : option string) (w : World) : World :=
  {| react := {| isLoading := isLoading (react w); error := e;
                 statusMessage := statusMessage (react w) |};
     trace := (trace w ++ [SetError e])%list |}.

Definition set_statusMessage (s : option string) (w : World) : World :=
  {| react := {| isLoading := isLoading (react w); error := error (react w);
                 statusMessage := s |};
     trace := (trace w ++ [SetStatusMessage s])%list |}.

(** [await new Promise(resolve => setTimeout(resolve, ms))] *)
Definition wait (ms : Z) (w : World) : World := log (Sleep ms) w.

Definition act (f : World -> World) : M unit := fun w => (Normal tt, f w).

Definition setIsLoading (b : bool) : M unit := act (set_isLoading b).
Definition setError (e : option string) : M unit := act (set_error e).
Definition setStatusMessage (s : option string) : M unit := act (set_statusMessage s).

(** The number of [chat.sendMessage] requests made so far. *)
Fixpoint chat_requests (tr : list Event) : nat :=
  match tr with
  | [] => 0
  | ChatSendMessage _ _ :: tr' => S (chat_requests tr')
  | _ :: tr' => chat_requests tr'
  end.

(** The outside of the hook: the credentials of the build environment
    and the two providers.  A provider answers a request with a value or
    with a thrown error; the answer of the chat endpoint may change from
    one request to the next, so it also depends on the number of
    requests made before. *)
Record Env := {
  VITE_GROQ_API_KEY : option string;
  VITE_GEMINI_API_KEY : option string;
  (** [completion.choices[0]?.message?.content], or the error thrown *)
  groq_create : GroqRequest.t -> Js.Error + option string;
  (** [result.response.text()] of [model.generateContent], or the error thrown *)
  generateContent : GeminiModel.t -> list Part -> Js.Error + string;
  (** [result.response.text()] of [chat.sendMessage], or the error thrown *)
  chat_sendMessage : nat -> Chat.t -> string -> Js.Error + string
}.

(** The line feed of a template literal or of an escape. *)
Definition LF : string := String (ascii_of_nat 10) EmptyString.

(** ** The provider requests *)

Section Providers.
Variable env : Env.

(** [await groq.chat.completions.create(req)], then
    [completion.choices[0]?.message?.content] *)
Definition groq_chat_completions_create (req : GroqRequest.t) : M (option string) :=
  fun w =>
    match groq_create env req with
    | inl e => (Throw e, log (GroqCreate req) w)
    | inr content => (Normal content, log (GroqCreate req) w)
    end.

(** [await model.generateContent(promptParts)], then [result.response.text()] *)
Definition model_generateContent (model : GeminiModel.t) (promptParts : list Part) : M string :=
  fun w =>
    match generateContent env model promptParts with
    | inl e => (Throw e, log (GenerateContent model promptParts) w)
    | inr t => (Normal t, log (GenerateContent model promptParts) w)
    end.

(** [await chat.sendMessage(msg)], then [result.response.text()] *)
Definition chat_send (chat : Chat.t) (msg : string) : M string :=
  fun w =>
    match chat_sendMessage env (chat_requests (trace w)) chat msg with
    | inl e => (Throw e, log (ChatSendMessage chat msg) w)
    | inr t => (Normal t, log (ChatSendMessage chat msg) w)
    end.
End Providers.

(** ** The retry loop

    [while (attempt <= maxRetries) { try { ... return ... } catch (err) { ... } }
     throw new Error(exhausted)]
    of useAI.ts (lines 142-158) and of useGemini.ts (lines 59-79).  The
    two loops differ in three strings: the status set before the wait
    ([busy]), the status set after [attempt++] ([retrying]: useGemini
    sets one, useAI sets none) and the message of the error thrown after
    the loop ([exhausted]). *)

Definition inspect {A} (a : A) : {b : A | a = b} := exist _ a eq_refl.

(** [err.message?.includes('429') || err.status === 429] *)
Definition is429 (err : Js.Error) : bool :=
  match Js.message err with
  | Some m => Js.includes "429" m
  | None => false
  end
  || match Js.status err with
     | Some st => Z.eqb st 429
     | None => false
     end.

Section Retry.
Variable env : Env.
Variable maxRetries : nat.
Variable busy : string.
Variable retrying : option string.
Variable exhausted : string.
Variable chat : Chat.t.
Variable msg : string.

(** The catch block on a rate-limited error with budget left, up to
    [continue]. *)
Definition back_off (w : World) : World :=
  let w := set_statusMessage (Some busy) w in
  let w := wait 3000 w in
  match retrying with
  | Some s => set_statusMessage (Some s) w
  | None => w
  end.

Equations? retry_loop (attempt : nat) (w : World) : Completion string * World
  by wf (maxRetries - attempt) lt :=
  retry_loop attempt w with inspect (attempt <=? maxRetries)%nat := {
    | exist _ false _ => throw (Js.new_Error exhausted) w
    | exist _ true _ with chat_send env chat msg w := {
        | (Normal t, w1) => (Normal t, w1)
        | (Throw err, w1) with inspect (is429 err && (attempt <? maxRetries)%nat) := {
            | exist _ true _ =>
                retry_loop (S attempt) (back_off w1)
            | exist _ false _ => (Throw err, w1) } } }.
Proof.
  match goal with
  | H : (_ && _) = true |- _ => apply andb_prop in H as [_ H]; apply Nat.ltb_lt in H
  end.
  lia.
Qed.
End Retry.

(** ** useAI (src/hooks/useAI.ts, lines 1-170) *)

Module UseAI.
Section Hook.
(** The string value of each member of the [Subject] enum (types.ts,
    not among the sources). *)
Variable subjectValue : Subject -> string.
Variable env : Env.

(** [[Subject.MATH, Subject.PHYSICS, Subject.CHEMISTRY].includes(subject)] *)
Definition quantitative (subject : Subject) : bool :=
  existsb (String.eqb (subjectValue subject))
          (map subjectValue [MATH; PHYSICS; CHEMISTRY]).

(** Lines 24-27. *)
Definition systemInstruction (subject : Subject) : string :=
  let systemInstruction :=
    "You are an expert " ++ subjectValue subject
    ++ " tutor. If the user asks for a comparison or list, ALWAYS format the output as a Markdown Table." in
  if quantitative subject
  then systemInstruction
       ++ " Use LaTeX for all math equations. Wrap block equations in $$ and inline in $. Provide clear, step-by-step explanations."
  else systemInstruction.

(** [attachment?.type === 'image'], [attachment?.type === 'text'] *)
Definition type_is (ty : AttachmentType) (attachment : option Attachment.t) : bool :=
  match attachment, ty with
  | Some a, image => match Attachment.type a with image => true | text => false end
  | Some a, text => match Attachment.type a with text => true | image => false end
  | None, _ => false
  end.

(** Line 57: [attachment.content.split(',')[1] || attachment.content] *)
Definition base64Data (content : string) : string :=
  Js.or_else (nth_error (Js.split_comma content) 1) content.

(** Lines 54-64. *)
Definition promptParts (text : string) (attachment : option Attachment.t) : list Part :=
  ([TextPart text]
   ++ match attachment with
      | Some a =>
          if Js.truthy (Some (Attachment.content a))
          then [InlineData (base64Data (Attachment.content a))
                           (Js.or_else (Attachment.mimeType a) "image/jpeg")]
          else []
      | None => []
      end)%list.

(** Lines 93-96: the history as Groq messages. *)
Definition groqHistory (previousMessages : list Message.t) : list GroqMessage.t :=
  map (fun msg =>
         {| GroqMessage.role :=
              match Message.role msg with USER => "user" | _ => "assistant" end;
            GroqMessage.content :=
              Message.content msg
              ++ (if type_is text (Message.attachment msg)
                  then LF ++ "[File]: "
                       ++ match Message.attachment msg with
                          | Some a => Attachment.content a
                          | None => ""
                          end
                  else "") |})
      previousMessages.

(** Lines 127-130: the history as Gemini turns. *)
Definition geminiHistory (previousMessages : list Message.t) : list GeminiTurn.t :=
  map (fun msg =>
         {| GeminiTurn.role :=
              match Message.role msg with USER => "user" | _ => "model" end;
            GeminiTurn.parts := [Message.content msg] |})
      previousMessages.

(** The content of a text attachment, for the prompts of lines 87 and 144. *)
Definition attached (marker : string) (attachment : option Attachment.t) : string :=
  if type_is text attachment
  then marker ++ match attachment with
                 | Some a => Attachment.content a
                 | None => ""
                 end
  else "".

(** Lines 44-51: the model of the vision route. *)
Definition visionModel (subject : Subject) : GeminiModel.t :=
  {| GeminiModel.model := "gemini-1.5-flash";
     GeminiModel.systemInstruction := systemInstruction subject |}.

(** Lines 85-105: the request to Groq. *)
Definition groqRequest (text : string) (subject : Subject)
    (previousMessages : list Message.t) (attachment : option Attachment.t) : GroqRequest.t :=
  let finalPrompt :=
    text ++ attached (LF ++ LF ++ "[Attached File Content]:" ++ LF) attachment in
  let messages :=
    ([{| GroqMessage.role := "system";
         GroqMessage.content := systemInstruction subject |}]
     ++ groqHistory previousMessages
     ++ [{| GroqMessage.role := "user"; GroqMessage.content := finalPrompt |}])%list in
  {| GroqRequest.messages := messages;
     GroqRequest.model := "llama-3.3-70b-versatile";
     GroqRequest.max_tokens := 1024 |}.

(** Lines 127-140: the chat session of the fallback. *)
Definition fallbackChat (subject : Subject) (previousMessages : list Message.t) : Chat.t :=
  let model := {| GeminiModel.model := "gemini-1.5-flash";
                  GeminiModel.systemInstruction := systemInstruction subject |} in
  {| Chat.model := model;
     Chat.history := geminiHistory previousMessages;
     Chat.maxOutputTokens := 1000 |}.

(** Line 144: the message sent on the fallback chat. *)
Definition fallbackPrompt (text : string) (attachment : option Attachment.t) : string :=
  text ++ attached (LF ++ LF ++ "File Content:" ++ LF) attachment.

(** Lines 18-167. *)
Definition sendMessage (text : string) (subject : Subject)
    (previousMessages : list Message.t) (attachment : option Attachment.t) : M string :=
  (setIsLoading true ;;
   setError None ;;
   setStatusMessage None ;;
   let hasImage := type_is image attachment in
   if hasImage then
     setStatusMessage (Some "Analyzing image...") ;;
     try_catch
       (let geminiApiKey := VITE_GEMINI_API_KEY env in
        if negb (Js.truthy geminiApiKey)
        then throw (Js.new_Error "Gemini API Key missing")
        else model_generateContent env (visionModel subject)
               (promptParts text attachment))
       (fun visionError =>
          setError (Some (Js.or_else (Js.message visionError) "Failed to analyze image.")) ;;
          throw visionError)
   else
     try_catch
       (let groqApiKey := VITE_GROQ_API_KEY env in
        if negb (Js.truthy groqApiKey)
        then throw (Js.new_Error "Groq API Key missing")
        else
          response <- groq_chat_completions_create env
                        (groqRequest text subject previousMessages attachment) ;;
          if negb (Js.truthy response)
          then throw (Js.new_Error "Empty response from Groq")
          else ret (Js.or_else response ""))
       (fun groqError =>
          setStatusMessage (Some "Traffic high. Switching to backup AI...") ;;
          let attempt := 0 in
          let maxRetries := 1 in
          try_catch
            (let geminiApiKey := VITE_GEMINI_API_KEY env in
             if negb (Js.truthy geminiApiKey)
             then throw (Js.new_Error "Gemini API Key missing")
             else
               retry_loop env maxRetries
                 "Server busy. Retrying backup connection..."
                 None
                 "Max retries exceeded on fallback."
                 (fallbackChat subject previousMessages)
                 (fallbackPrompt text attachment)
                 attempt)
            (fun finalError =>
               setError (Some (Js.or_else (Js.message finalError)
                                          "All AI services are currently busy.")) ;;
               throw finalError)))%hook.
End Hook.
End UseAI.

(** ** useGemini (src/hooks/useGemini.ts, lines 1-96) *)

Module UseGemini.
Section Hook.
Variable subjectValue : Subject -> string.
Variable env : Env.

Definition quantitative (subject : Subject) : bool :=
  existsb (String.eqb (subjectValue subject))
          (map subjectValue [MATH; PHYSICS; CHEMISTRY]).

(** Lines 38-41. *)
Definition systemInstruction (subject : Subject) : string :=
  let systemInstruction := "You are an expert " ++ subjectValue subject ++ " tutor." in
  if quantitative subject
  then systemInstruction
       ++ " Use LaTeX for all math equations. Wrap block equations in $$ and inline in $. Provide clear, step-by-step explanations."
  else systemInstruction.

(** Lines 30-33. *)
Definition history (previousMessages : list Message.t) : list GeminiTurn.t :=
  map (fun msg =>
         {| GeminiTurn.role :=
              match Message.role msg with USER => "user" | _ => "model" end;
            GeminiTurn.parts := [Message.content msg] |})
      previousMessages.

(** Lines 36-57: the chat session; the safety settings of the model
    are left out. *)
Definition chatSession (subject : Subject) (previousMessages : list Message.t) : Chat.t :=
  let modelId := "gemini-2.0-flash" in
  let model := {| GeminiModel.model := modelId;
                  GeminiModel.systemInstruction := systemInstruction subject |} in
  {| Chat.model := model;
     Chat.history := history previousMessages;
     Chat.maxOutputTokens := 1000 |}.

(** Lines 17-93. *)
Definition sendMessage (text : string) (subject : Subject)
    (previousMessages : list Message.t) : M string :=
  (setIsLoading true ;;
   setError None ;;
   setStatusMessage None ;;
   let attempt := 0 in
   let maxRetries := 1 in
   try_finally
     (try_catch
        (let apiKey := VITE_GEMINI_API_KEY env in
         if negb (Js.truthy apiKey)
         then throw (Js.new_Error
                       "Gemini API Key is not configured (VITE_GEMINI_API_KEY missing).")
         else
           retry_loop env maxRetries
             "Server is busy (High Traffic). Retrying in 3 seconds..."
             (Some "Retrying now...")
             "Max retries exceeded."
             (chatSession subject previousMessages) text attempt)
        (fun err =>
           let errorMessage :=
             Js.or_else (Js.message err) "Failed to communicate with Gemini." in
           setError (Some errorMessage) ;;
           setStatusMessage None ;;
           throw err))
     (setIsLoading false ;;
      setStatusMessage None))%hook.
End Hook.
End UseGemini.

(** ** getSystemInstruction (third file of src/hooks/useAI.ts, lines 301-318) *)

Module GeminiService.
Section Service.
Variable subjectValue : Subject -> string.

(** [a === b] on members of the enum, which are strings at run time. *)
Definition same (a b : Subject) : bool := String.eqb (subjectValue a) (subjectValue b).

Definition getSystemInstruction (subject : Subject) : string :=
  let baseInstruction :=
    "You are a helpful, expert tutor specializing in " ++ subjectValue subject ++ "." in
  if same subject MATH || same subject PHYSICS || same subject CHEMISTRY then
    baseInstruction ++ " " ++ LF
    ++ "    - CRITICAL: You MUST use LaTeX formatting for all mathematical equations, formulas, and symbols." ++ LF
    ++ "    - Wrap block equations in double dollar signs: $$ ... $$" ++ LF
    ++ "    - Wrap inline equations in single dollar signs: $ ... $" ++ LF
    ++ "    - Explain concepts step-by-step." ++ LF
    ++ "    - If the user makes a mistake, gently correct them."
  else if same subject CODING then
    baseInstruction
    ++ " Provide clean, well-commented code snippets. Explain the logic behind the code."
  else
    baseInstruction ++ " Be concise and clear.".
End Service.
End GeminiService.

(** ** Reading a trace *)

(** The number of requests to Groq in a trace. *)
Fixpoint groq_requests (tr : list Event) : nat :=
  match tr with
  | [] => 0
  | GroqCreate _ :: tr' => S (groq_requests tr')
  | _ :: tr' => groq_requests tr'
  end.

(** The number of [generateContent] requests in a trace. *)
Fixpoint vision_requests (tr : list Event) : nat :=
  match tr with
  | [] => 0
  | GenerateContent _ _ :: tr' => S (vision_requests tr')
  | _ :: tr' => vision_requests tr'
  end.

(** The number of timers waited for in a trace. *)
Fixpoint sleeps (tr : list Event) : nat :=
  match tr with
  | [] => 0
  | Sleep _ :: tr' => S (sleeps tr')
  | _ :: tr' => sleeps tr'
  end.

(** What one turn of the catch block of the retry loop adds to the
    trace: the status, the three-second wait and, in useGemini, the
    second status. *)
Definition backoff_events (busy : string) (retrying : option string) : list Event :=
  [SetStatusMessage (Some busy); Sleep 3000]
  ++ match retrying with
     | Some s => [SetStatusMessage (Some s)]
     | None => []
     end.

(** The trace of a run of the retry loop that makes [S k] requests:
    the request, then [k] times a back-off and the same request again. *)
Fixpoint attempts_trace (busy : string) (retrying : option string)
    (chat : Chat.t) (msg : string) (k : nat) : list Event :=
  match k with
  | 0 => [ChatSendMessage chat msg]
  | S k' =>
      ChatSendMessage chat msg
      :: backoff_events busy retrying ++ attempts_trace busy retrying chat msg k'
  end.

(** The primary hop of the text chain produces no text: the Groq
    credential is missing, the request throws, or the completion has no
    content or an empty one. *)
Definition primary_fails (env : Env) (req : GroqRequest.t) : Prop :=
  Js.truthy (VITE_GROQ_API_KEY env) = false
  \/ (exists e, groq_create env req = inl e)
  \/ (exists content, groq_create env req = inr content /\ Js.truthy content = false).

(** The primary hop produces the non-empty text [r]. *)
Definition primary_answers (env : Env) (req : GroqRequest.t) (r : string) : Prop :=
  Js.truthy (VITE_GROQ_API_KEY env) = true
  /\ groq_create env req = inr (Some r)
  /\ r <> "".

(** The fallback hop answers [t] within its retry budget of one: at
    the first request, or at the second one after a rate-limited first. *)
Definition fallback_answers (env : Env) (chat : Chat.t) (msg : string) (t : string) : Prop :=
  chat_sendMessage env 0 chat msg = inr t
  \/ (exists e, chat_sendMessage env 0 chat msg = inl e
                /\ is429 e = true
                /\ chat_sendMessage env 1 chat msg = inr t).



(** ** Concrete inputs *)

Module Demo.

Definition subjectValue (s : Subject) : string :=
  match s with
  | MATH => "Math"
  | PHYSICS => "Physics"
  | CHEMISTRY => "Chemistry"
  | CODING => "Coding"
  | OTHER _ => "General"
  end.

Definition idle : ReactState :=
  {| isLoading := false; error := None; statusMessage := None |}.

(** The error of a throttled request. *)
Definition rateLimited : Js.Error :=
  {| Js.message := Some "[429 Too Many Requests] Resource has been exhausted";
     Js.status := Some 429%Z |}.

(** The error of a refused request. *)
Definition forbidden : Js.Error :=
  {| Js.message := Some "[403 Forbidden] API key not valid"; Js.status := Some 403%Z |}.

(** Both credentials set; Groq is throttled, Gemini answers. *)
Definition groq_down : Env :=
  {| VITE_GROQ_API_KEY := Some "gsk-key";
     VITE_GEMINI_API_KEY := Some "gemini-key";
     groq_create := fun _ => inl rateLimited;
     generateContent := fun _ _ => inr "It is a triangle.";
     chat_sendMessage := fun _ _ _ => inr "x = 2" |}.

(** Both credentials set; every provider is throttled at every request. *)
Definition throttled : Env :=
  {| VITE_GROQ_API_KEY := Some "gsk-key";
     VITE_GEMINI_API_KEY := Some "gemini-key";
     groq_create := fun _ => inl rateLimited;
     generateContent := fun _ _ => inl rateLimited;
     chat_sendMessage := fun _ _ _ => inl rateLimited |}.

(** Both credentials set; every provider refuses every request. *)
Definition refusing : Env :=
  {| VITE_GROQ_API_KEY := Some "gsk-key";
     VITE_GEMINI_API_KEY := Some "gemini-key";
     groq_create := fun _ => inl forbidden;
     generateContent := fun _ _ => inl forbidden;
     chat_sendMessage := fun _ _ _ => inl forbidden |}.

(** No Groq credential; Gemini answers. *)
Definition no_groq_key : Env :=
  {| VITE_GROQ_API_KEY := None;
     VITE_GEMINI_API_KEY := Some "gemini-key";
     groq_create := fun _ => inr (Some "from Groq");
     generateContent := fun _ _ => inr "It is a triangle.";
     chat_sendMessage := fun _ _ _ => inr "x = 2" |}.

(** No Gemini credential; Groq is throttled. *)
Definition no_gemini_key : Env :=
  {| VITE_GROQ_API_KEY := Some "gsk-key";
     VITE_GEMINI_API_KEY := None;
     groq_create := fun _ => inl rateLimited;
     generateContent := fun _ _ => inr "It is a triangle.";
     chat_sendMessage := fun _ _ _ => inr "x = 2" |}.

Definition chat : Chat.t :=
  {| Chat.model := {| GeminiModel.model := "gemini-2.0-flash";
                      GeminiModel.systemInstruction := "You are an expert Math tutor." |};
     Chat.history := [];
     Chat.maxOutputTokens := 1000 |}.

Definition photo : Attachment.t :=
  {| Attachment.content := "data:image/png;base64,iVBORw0KGgo=";
     Attachment.type := image;
     Attachment.mimeType := Some "image/png" |}.

Definition notes : Attachment.t :=
  {| Attachment.content := "F = m a";
     Attachment.type := text;
     Attachment.mimeType := None |}.

(** A user message that carries a text file. *)
Definition with_notes : Message.t :=
  {| Message.role := USER;
     Message.content := "See my notes.";
     Message.attachment := Some notes |}.

End Demo.

(** ** useAI, the text-only variant (src/hooks/useAI.ts, lines 171-294) *)

Module UseAI2.
Section Hook.
Variable subjectValue : Subject -> string.
Variable env : Env.

Definition quantitative (subject : Subject) : bool :=
  existsb (String.eqb (subjectValue subject))
          (map subjectValue [MATH; PHYSICS; CHEMISTRY]).

(** Lines 194-197. *)
Definition systemInstruction (subject : Subject) : string :=
  let systemInstruction := "You are an expert " ++ subjectValue subject ++ " tutor." in
  if quantitative subject
  then systemInstruction
       ++ " Use LaTeX for all math equations. Wrap block equations in $$ and inline in $. Provide clear, step-by-step explanations."
  else systemInstruction.

(** Lines 207-221: the request to Groq. *)
Definition groqRequest (text : string) (subject : Subject)
    (previousMessages : list Message.t) : GroqRequest.t :=
  let messages :=
    ([{| GroqMessage.role := "system";
         GroqMessage.content := systemInstruction subject |}]
     ++ map (fun msg =>
               {| GroqMessage.role :=
                    match Message.role msg with USER => "user" | _ => "assistant" end;
                  GroqMessage.content := Message.content msg |})
            previousMessages
     ++ [{| GroqMessage.role := "user"; GroqMessage.content := text |}])%list in
  {| GroqRequest.messages := messages;
     GroqRequest.model := "llama-3.3-70b-versatile";
     GroqRequest.max_tokens := 1024 |}.

(** Lines 242-261: the chat session of the fallback; the safety
    settings of the model are left out. *)
Definition fallbackChat (subject : Subject) (previousMessages : list Message.t) : Chat.t :=
  let geminiHistory :=
    map (fun msg =>
           {| GeminiTurn.role :=
                match Message.role msg with USER => "user" | _ => "model" end;
              GeminiTurn.parts := [Message.content msg] |})
        previousMessages in
  let model := {| GeminiModel.model := "gemini-2.0-flash";
                  GeminiModel.systemInstruction := systemInstruction subject |} in
  {| Chat.model := model;
     Chat.history := geminiHistory;
     Chat.maxOutputTokens := 1000 |}.

(** Lines 188-291. *)
Definition sendMessage (text : string) (subject : Subject)
    (previousMessages : list Message.t) : M string :=
  (setIsLoading true ;;
   setError None ;;
   setStatusMessage None ;;
   try_finally
     (try_catch
        (let groqApiKey := VITE_GROQ_API_KEY env in
         if negb (Js.truthy groqApiKey)
         then throw (Js.new_Error "Groq API Key missing")
         else
           response <- groq_chat_completions_create env
                         (groqRequest text subject previousMessages) ;;
           if negb (Js.truthy response)
           then throw (Js.new_Error "Empty response from Groq")
           else ret (Js.or_else response ""))
        (fun groqError =>
           setStatusMessage (Some "Traffic high. Switching to backup AI...") ;;
           let attempt := 0 in
           let maxRetries := 1 in
           try_catch
             (let geminiApiKey := VITE_GEMINI_API_KEY env in
              if negb (Js.truthy geminiApiKey)
              then throw (Js.new_Error "Gemini API Key missing")
              else
                retry_loop env maxRetries
                  "Server busy. Retrying backup connection..."
                  None
                  "Max retries exceeded on fallback."
                  (fallbackChat subject previousMessages)
                  text
                  attempt)
             (fun finalError =>
                setError (Some (Js.or_else (Js.message finalError)
                                           "All AI services are currently busy.")) ;;
                throw finalError)))
     (setIsLoading false ;;
      setStatusMessage None))%hook.
End Hook.
End UseAI2.

(** ** The hooks on the @google/genai client

    [generateTutorResponse] (src/hooks/useAI.ts, lines 320-357) and the
    second [useGemini] (src/hooks/useGemini.ts, lines 106-163) create a
    chat with [ai.chats.create] and send one message on it. *)

Module GenAI.

(** The argument of [ai.chats.create]; the temperature is left out. *)
Record ChatParams := {
  model : string;
  systemInstruction : string;
  history : list GeminiTurn.t
}.

(** A request: the chat it is sent on and the message. *)
Record Request := { chat : ChatParams; message : string }.

(** The outside: the credential and the answer of the provider to a
    request, which is [result.text] (a string or undefined) or a thrown
    error. *)
Record Env := {
  API_KEY : option string;
  chat_sendMessage : ChatParams -> string -> Js.Error + option string
}.

(** The state of the second [useGemini] and the requests made. *)
Record World := {
  isLoading : bool;
  error : option string;
  requests : list Request
}.

(** Blocks over any state. *)
Section Blocks.
Context {W : Type}.

Definition M (A : Type) : Type := W -> Completion A * W.

Definition ret {A} (a : A) : M A := fun w => (Normal a, w).

Definition throw {A} (e : Js.Error) : M A := fun w => (Throw e, w).

Definition bind {A B} (m : M A) (k : A -> M B) : M B :=
  fun w =>
    match m w with
    | (Normal a, w') => k a w'
    | (Throw e, w') => (Throw e, w')
    end.

Definition try_catch {A} (body : M A) (handler : Js.Error -> M A) : M A :=
  fun w =>
    match body w with
    | (Normal a, w') => (Normal a, w')
    | (Throw e, w') => handler e w'
    end.

Definition try_finally {A} (body : M A) (fin : M unit) : M A :=
  fun w =>
    match body w with
    | (c, w') =>
        match fin w' with
        | (Normal _, w'') => (c, w'')
        | (Throw e, w'') => (Throw e, w'')
        end
    end.
End Blocks.

(** [subject === MATH || subject === PHYSICS || subject === CODING ? pro : flash] *)
Definition modelId (subjectValue : Subject -> string) (subject : Subject) : string :=
  if String.eqb (subjectValue subject) (subjectValue MATH)
     || String.eqb (subjectValue subject) (subjectValue PHYSICS)
     || String.eqb (subjectValue subject) (subjectValue CODING)
  then "gemini-3-pro-preview"
  else "gemini-3-flash-preview".

End GenAI.

Declare Scope block_scope.
Delimit Scope block_scope with block.
Notation "x <- m ;; k" := (GenAI.bind m (fun x => k))
  (at level 61, m at next level, right associativity) : block_scope.
Notation "m ;; k" := (GenAI.bind m (fun _ => k))
  (at level 61, right associativity) : block_scope.

(** *** generateTutorResponse (src/hooks/useAI.ts, lines 320-357) *)

Module Service.
Section Service.
Variable subjectValue : Subject -> string.
Variable env : GenAI.Env.

(** [chat.sendMessage({ message })] on a chat just created: the request
    is recorded and the provider answers. *)
Definition send (params : GenAI.ChatParams) (message : string)
    : GenAI.M (W := list GenAI.Request) (option string) :=
  fun reqs =>
    let reqs' := (reqs ++ [{| GenAI.chat := params; GenAI.message := message |}])%list in
    match GenAI.chat_sendMessage env params message with
    | inl e => (Throw e, reqs')
    | inr t => (Normal t, reqs')
    end.

Definition generateTutorResponse (prompt : string) (subject : Subject)
    (history : list GeminiTurn.t) : GenAI.M (W := list GenAI.Request) string :=
  if negb (Js.truthy (GenAI.API_KEY env))
  then GenAI.ret "Error: API_KEY is missing in environment variables."
  else
    GenAI.try_catch
      (let modelId := GenAI.modelId subjectValue subject in
       result <- send {| GenAI.model := modelId;
                         GenAI.systemInstruction :=
                           GeminiService.getSystemInstruction subjectValue subject;
                         GenAI.history := history |}
                      prompt ;;
       GenAI.ret (Js.or_else result "I couldn't generate a response."))%block
      (fun error =>
         GenAI.ret "Sorry, I encountered an error while processing your request.").
End Service.
End Service.

(** *** useGemini, the variant without retry (src/hooks/useGemini.ts, lines 96-163) *)

Module UseGemini2.
Section Hook.
Variable subjectValue : Subject -> string.
Variable env : GenAI.Env.

Definition setIsLoading (b : bool) : GenAI.M (W := GenAI.World) unit :=
  fun w => (Normal tt, {| GenAI.isLoading := b; GenAI.error := GenAI.error w;
                          GenAI.requests := GenAI.requests w |}).

Definition setError (e : option string) : GenAI.M (W := GenAI.World) unit :=
  fun w => (Normal tt, {| GenAI.isLoading := GenAI.isLoading w; GenAI.error := e;
                          GenAI.requests := GenAI.requests w |}).

Definition send (params : GenAI.ChatParams) (message : string)
    : GenAI.M (W := GenAI.World) (option string) :=
  fun w =>
    let w' := {| GenAI.isLoading := GenAI.isLoading w; GenAI.error := GenAI.error w;
                 GenAI.requests :=
                   (GenAI.requests w
                    ++ [{| GenAI.chat := params; GenAI.message := message |}])%list |} in
    match GenAI.chat_sendMessage env params message with
    | inl e => (Throw e, w')
    | inr t => (Normal t, w')
    end.

(** Lines 131-134. *)
Definition systemInstruction (subject : Subject) : string :=
  let systemInstruction := "You are an expert " ++ subjectValue subject ++ " tutor." in
  if existsb (String.eqb (subjectValue subject))
             (map subjectValue [MATH; PHYSICS; CHEMISTRY])
  then systemInstruction
       ++ " Use LaTeX for all math equations. Wrap block equations in $$ and inline in $. Provide clear, step-by-step explanations."
  else systemInstruction.

(** Lines 122-143: the chat. *)
Definition chatParams (subject : Subject) (previousMessages : list Message.t)
    : GenAI.ChatParams :=
  let history :=
    map (fun msg =>
           {| GeminiTurn.role :=
                match Message.role msg with USER => "user" | _ => "model" end;
              GeminiTurn.parts := [Message.content msg] |})
        previousMessages in
  {| GenAI.model := GenAI.modelId subjectValue subject;
     GenAI.systemInstruction := systemInstruction subject;
     GenAI.history := history |}.

(** Lines 110-160. *)
Definition sendMessage (text : string) (subject : Subject)
    (previousMessages : list Message.t) : GenAI.M (W := GenAI.World) string :=
  (setIsLoading true ;;
   setError None ;;
   GenAI.try_finally
     (GenAI.try_catch
        (if negb (Js.truthy (GenAI.API_KEY env))
         then GenAI.throw (Js.new_Error "Gemini API Key is not configured.")
         else
           result <- send (chatParams subject previousMessages) text ;;
           GenAI.ret (Js.or_else result ""))
        (fun err =>
           let errorMessage :=
             Js.or_else (Js.message err) "Failed to communicate with Gemini." in
           setError (Some errorMessage) ;;
           GenAI.throw err))
     (setIsLoading false))%block.
End Hook.
End UseGemini2.

(** ** More concrete inputs *)

Module Demo2.

(** Both credentials set; Groq refuses, and the chat endpoint is
    throttled at its first request and answers from the second on. *)
Definition recovering : Env :=
  {| VITE_GROQ_API_KEY := Some "gsk-key";
     VITE_GEMINI_API_KEY := Some "gemini-key";
     groq_create := fun _ => inl Demo.forbidden;
     generateContent := fun _ _ => inr "It is a triangle.";
     chat_sendMessage := fun n _ _ =>
       match n with
       | 0 => inl Demo.rateLimited
       | _ => inr "x = 2"
       end |}.

(** The @google/genai client without a credential. *)
Definition no_api_key : GenAI.Env :=
  {| GenAI.API_KEY := None;
     GenAI.chat_sendMessage := fun _ _ => inr (Some "x = 2") |}.

(** The @google/genai client, throttled at every request. *)
Definition genai_throttled : GenAI.Env :=
  {| GenAI.API_KEY := Some "gemini-key";
     GenAI.chat_sendMessage := fun _ _ => inl Demo.rateLimited |}.


(** The error of a server fault, no rate limit, whose message happens
    to hold the digits 429. *)
Definition serverFault : Js.Error :=
  {| Js.message := Some "Internal error: code 14290 reached"; Js.status := Some 500%Z |}.

(** Both credentials set; the chat endpoint answers every request with
    the server fault. *)
Definition faulty : Env :=
  {| VITE_GROQ_API_KEY := Some "gsk-key";
     VITE_GEMINI_API_KEY := Some "gemini-key";
     groq_create := fun _ => inl Demo.forbidden;
     generateContent := fun _ _ => inl serverFault;
     chat_sendMessage := fun _ _ _ => inl serverFault |}.

End Demo2.

(** ** useVoice (src/unnamed/part_000): the result handler *)

Module UseVoice.

(** A recognition result, as the handler reads it: [results[i].isFinal]
    and [results[i][0].transcript]. *)
Record SpeechResult := { isFinal : bool; transcript : string }.

(** The event of [onresult]. *)
Record SpeechEvent := { resultIndex : nat; results : list SpeechResult }.

(** Lines 47-53: the body of the [for] loop, over the results from
    [resultIndex] on; the pair is [(finalTrans, interimTrans)]. *)
Fixpoint scan (rs : list SpeechResult) (finalTrans interimTrans : string)
    : string * string :=
  match rs with
  | [] => (finalTrans, interimTrans)
  | r :: rs' =>
      if isFinal r
      then scan rs' (finalTrans ++ transcript r) interimTrans
      else scan rs' finalTrans (interimTrans ++ transcript r)
  end.

(** Lines 43-61: [onresult], as the new value of [transcript]. *)
Definition onresult (event : SpeechEvent) (prev : string) : string :=
  let finalTrans := fst (scan (skipn (resultIndex event) (results event)) "" "") in
  if Js.truthy (Some finalTrans)
  then prev ++ finalTrans ++ " "
  else prev.

(** The final results of an event from its [resultIndex] on, joined. *)
Definition final_text (event : SpeechEvent) : string :=
  String.concat ""
    (map transcript (filter isFinal (skipn (resultIndex event) (results event)))).

End UseVoice.

(** ** Reading a run *)

(** The fallback hop fails with [e] within its retry budget of one:
    the first request fails with [e], not rate-limited, or it fails
    rate-limited and the second request fails with [e]. *)
Definition fallback_fails (env : Env) (chat : Chat.t) (msg : string) (e : Js.Error) : Prop :=
  (chat_sendMessage env 0 chat msg = inl e /\ is429 e = false)
  \/ (exists e0, chat_sendMessage env 0 chat msg = inl e0
                 /\ is429 e0 = true
                 /\ chat_sendMessage env 1 chat msg = inl e).

(** [isLoading] after a trace that starts with [isLoading = busy]. *)
Fixpoint loading_after (busy : bool) (tr : list Event) : bool :=
  match tr with
  | [] => busy
  | SetIsLoading b :: tr' => loading_after b tr'
  | _ :: tr' => loading_after busy tr'
  end.

(** Every provider request and every wait of a trace happens while
    [isLoading] is true; [busy] is [isLoading] before the trace. *)
Fixpoint busy_throughout (busy : bool) (tr : list Event) : bool :=
  match tr with
  | [] => true
  | SetIsLoading b :: tr' => busy_throughout b tr'
  | SetError _ :: tr' => busy_throughout busy tr'
  | SetStatusMessage _ :: tr' => busy_throughout busy tr'
  | _ :: tr' => busy && busy_throughout busy tr'
  end.

(** The statuses set in a trace, in order. *)
Fixpoint statuses (tr : list Event) : list (option string) :=
  match tr with
  | [] => []
  | SetStatusMessage s :: tr' => s :: statuses tr'
  | _ :: tr' => statuses tr'
  end.

(** * Properties *)

(** ** Strings *)

Lemma append_assoc (a b c : string) : (a ++ b) ++ c = a ++ b ++ c.
Proof.
  induction a as [|ch a IH]; simpl; [reflexivity|].
  now rewrite IH.
Qed.

Lemma includes_after (sub before s : string) :
  Js.includes sub s = true -> Js.includes sub (before ++ s) = true.
Proof.
  intros H. induction before as [|ch before IH]; simpl; [exact H|].
  rewrite IH. apply orb_true_r.
Qed.

(** ** The system instruction *)

Section Instruction.
Variable subjectValue : Subject -> string.

Lemma quantitative_members (s : Subject) :
  In s [MATH; PHYSICS; CHEMISTRY] -> UseAI.quantitative subjectValue s = true.
Proof.
  unfold UseAI.quantitative. simpl.
  intros [<-|[<-|[<-|[]]]]; rewrite String.eqb_refl; simpl;
    rewrite ?orb_true_r; reflexivity.
Qed.

Lemma service_quantitative (s : Subject) :
  In s [MATH; PHYSICS; CHEMISTRY] ->
  GeminiService.same subjectValue s MATH
  || GeminiService.same subjectValue s PHYSICS
  || GeminiService.same subjectValue s CHEMISTRY = true.
Proof.
  unfold GeminiService.same. simpl.
  intros [<-|[<-|[<-|[]]]]; rewrite String.eqb_refl; simpl;
    rewrite ?orb_true_r; reflexivity.
Qed.

Lemma systemInstruction_base (s : Subject) :
  exists rest,
    UseAI.systemInstruction subjectValue s
    = "You are an expert " ++ subjectValue s ++ " tutor." ++ rest.
Proof.
  unfold UseAI.systemInstruction.
  destruct (UseAI.quantitative subjectValue s); eexists;
    rewrite ?append_assoc; simpl; repeat f_equal;
    rewrite ?append_assoc; simpl; reflexivity.
Qed.

Lemma getSystemInstruction_base (s : Subject) :
  exists rest,
    GeminiService.getSystemInstruction subjectValue s
    = "You are a helpful, expert tutor specializing in " ++ subjectValue s ++ "." ++ rest.
Proof.
  unfold GeminiService.getSystemInstruction.
  destruct (_ || _); [|destruct (GeminiService.same _ _ _)]; eexists;
    rewrite ?append_assoc; simpl; repeat f_equal;
    rewrite ?append_assoc; simpl; reflexivity.
Qed.
End Instruction.

(** C9.  For every subject the system instruction of [sendMessage] and
    the one of [getSystemInstruction] are non-empty strings that open
    with the expert-tutor sentence naming the subject; for MATH,
    PHYSICS and CHEMISTRY they also hold the block-math delimiter [$$],
    the inline-math delimiter [$], which are different strings, and the
    step-by-step directive. *)
Theorem system_instruction_contract (subjectValue : Subject -> string) (s : Subject) :
  (UseAI.systemInstruction subjectValue s <> ""
   /\ exists rest,
        UseAI.systemInstruction subjectValue s
        = "You are an expert " ++ subjectValue s ++ " tutor." ++ rest)
  /\ (GeminiService.getSystemInstruction subjectValue s <> ""
      /\ exists rest,
           GeminiService.getSystemInstruction subjectValue s
           = "You are a helpful, expert tutor specializing in "
             ++ subjectValue s ++ "." ++ rest)
  /\ (In s [MATH; PHYSICS; CHEMISTRY] ->
      let hook := UseAI.systemInstruction subjectValue s in
      let service := GeminiService.getSystemInstruction subjectValue s in
      "$$" <> "$"
      /\ Js.includes "Wrap block equations in $$" hook = true
      /\ Js.includes "inline in $." hook = true
      /\ Js.includes "step-by-step explanations" hook = true
      /\ Js.includes "Wrap block equations in double dollar signs: $$ ... $$" service = true
      /\ Js.includes "Wrap inline equations in single dollar signs: $ ... $" service = true
      /\ Js.includes "Explain concepts step-by-step" service = true).
Proof.
  repeat split.
  - destruct (systemInstruction_base subjectValue s) as [rest ->]. discriminate.
  - apply systemInstruction_base.
  - destruct (getSystemInstruction_base subjectValue s) as [rest ->]. discriminate.
  - apply getSystemInstruction_base.
  - discriminate.
  - unfold UseAI.systemInstruction. rewrite (quantitative_members _ _ H).
    apply includes_after. reflexivity.
  - unfold UseAI.systemInstruction. rewrite (quantitative_members _ _ H).
    apply includes_after. reflexivity.
  - unfold UseAI.systemInstruction. rewrite (quantitative_members _ _ H).
    apply includes_after. reflexivity.
  - unfold GeminiService.getSystemInstruction. rewrite (service_quantitative _ _ H).
    apply includes_after. reflexivity.
  - unfold GeminiService.getSystemInstruction. rewrite (service_quantitative _ _ H).
    apply includes_after. reflexivity.
  - unfold GeminiService.getSystemInstruction. rewrite (service_quantitative _ _ H).
    apply includes_after. reflexivity.
Qed.

Lemma system_instruction_contract_physics :
  In PHYSICS [MATH; PHYSICS; CHEMISTRY]
  /\ Js.includes "Wrap block equations in $$"
       (UseAI.systemInstruction Demo.subjectValue PHYSICS) = true.
Proof.
  split.
  - simpl. right. left. reflexivity.
  - apply (system_instruction_contract Demo.subjectValue PHYSICS).
    simpl. right. left. reflexivity.
Defined.

(** ** The image payload *)







(** ** The history mappings *)

(** The role names of the two providers. *)
Lemma history_roles (msg : Message.t) :
  map GroqMessage.role (UseAI.groqHistory [msg])
  = [match Message.role msg with USER => "user" | ASSISTANT => "assistant" end]
  /\ map GeminiTurn.role (UseAI.geminiHistory [msg])
     = [match Message.role msg with USER => "user" | ASSISTANT => "model" end].
Proof. destruct msg as [[] c a]; split; reflexivity. Qed.

(** Both mappings keep the number and the order of the messages: the
    turn at a position is the image of the message at that position. *)
Lemma history_positions (previousMessages : list Message.t) (i : nat) :
  length (UseAI.groqHistory previousMessages) = length previousMessages
  /\ length (UseAI.geminiHistory previousMessages) = length previousMessages
  /\ nth_error (UseAI.groqHistory previousMessages) i
     = option_map (fun msg => hd {| GroqMessage.role := ""; GroqMessage.content := "" |}
                                 (UseAI.groqHistory [msg]))
                  (nth_error previousMessages i)
  /\ nth_error (UseAI.geminiHistory previousMessages) i
     = option_map (fun msg => hd {| GeminiTurn.role := ""; GeminiTurn.parts := [] |}
                                 (UseAI.geminiHistory [msg]))
                  (nth_error previousMessages i).
Proof.
  unfold UseAI.groqHistory, UseAI.geminiHistory.
  rewrite !length_map, !nth_error_map. repeat split.
Qed.

(** The Groq mapping appends the content of a text attachment after
    the marker [[File]: ]. *)
Lemma groqHistory_text_attachment (role : Role) (content : string) (a : Attachment.t) :
  Attachment.type a = text ->
  map GroqMessage.content
      (UseAI.groqHistory [{| Message.role := role; Message.content := content;
                             Message.attachment := Some a |}])
  = [content ++ LF ++ "[File]: " ++ Attachment.content a].
Proof.
  intros H. unfold UseAI.groqHistory, UseAI.type_is. simpl. now rewrite H.
Qed.

(** The Gemini mapping of the fallback never looks at the attachment. *)
Lemma geminiHistory_ignores_attachment (role : Role) (content : string)
    (a b : option Attachment.t) :
  UseAI.geminiHistory [{| Message.role := role; Message.content := content;
                          Message.attachment := a |}]
  = UseAI.geminiHistory [{| Message.role := role; Message.content := content;
                            Message.attachment := b |}].
Proof. reflexivity. Qed.

(** C8, at a message that carries a text file: the Groq turn holds the
    content of the file after the marker, the Gemini turn of the
    fallback holds the content of the message alone. *)
Theorem gemini_history_drops_file :
  UseAI.groqHistory [Demo.with_notes]
  = [{| GroqMessage.role := "user";
        GroqMessage.content := "See my notes." ++ LF ++ "[File]: F = m a" |}]
  /\ UseAI.geminiHistory [Demo.with_notes]
     = [{| GeminiTurn.role := "user"; GeminiTurn.parts := ["See my notes."] |}].
Proof. split; reflexivity. Qed.

(** ** The retry loop *)

Lemma chat_requests_app (tr1 tr2 : list Event) :
  chat_requests (tr1 ++ tr2) = chat_requests tr1 + chat_requests tr2.
Proof.
  induction tr1 as [|ev tr1 IH]; simpl; [reflexivity|].
  destruct ev; simpl; rewrite IH; reflexivity.
Qed.

Lemma sleeps_app (tr1 tr2 : list Event) :
  sleeps (tr1 ++ tr2) = sleeps tr1 + sleeps tr2.
Proof.
  induction tr1 as [|ev tr1 IH]; simpl; [reflexivity|].
  destruct ev; simpl; rewrite IH; reflexivity.
Qed.

Lemma groq_requests_app (tr1 tr2 : list Event) :
  groq_requests (tr1 ++ tr2) = groq_requests tr1 + groq_requests tr2.
Proof.
  induction tr1 as [|ev tr1 IH]; simpl; [reflexivity|].
  destruct ev; simpl; rewrite IH; reflexivity.
Qed.

Lemma vision_requests_app (tr1 tr2 : list Event) :
  vision_requests (tr1 ++ tr2) = vision_requests tr1 + vision_requests tr2.
Proof.
  induction tr1 as [|ev tr1 IH]; simpl; [reflexivity|].
  destruct ev; simpl; rewrite IH; reflexivity.
Qed.

Section RetryFacts.
Variable env : Env.
Variable maxRetries : nat.
Variable busy : string.
Variable retrying : option string.
Variable exhausted : string.
Variable chat : Chat.t.
Variable msg : string.

(** The body of the loop, one turn at a time. *)
Lemma retry_loop_body (attempt : nat) (w : World) :
  retry_loop env maxRetries busy retrying exhausted chat msg attempt w
  = if (attempt <=? maxRetries)%nat then
      match chat_send env chat msg w with
      | (Normal t, w1) => (Normal t, w1)
      | (Throw err, w1) =>
          if is429 err && (attempt <? maxRetries)%nat
          then retry_loop env maxRetries busy retrying exhausted chat msg
                 (S attempt) (back_off busy retrying w1)
          else (Throw err, w1)
      end
    else throw (Js.new_Error exhausted) w.
Proof.
  funelim (retry_loop env maxRetries busy retrying exhausted chat msg attempt w);
    repeat match goal with
      | H : ?x = _ |- context [?x] => rewrite H
      end; reflexivity.
Qed.

Lemma back_off_trace (w : World) :
  trace (back_off busy retrying w) = (trace w ++ backoff_events busy retrying)%list.
Proof.
  unfold back_off, backoff_events. destruct retrying; simpl;
    rewrite <- ?app_assoc; reflexivity.
Qed.

(** A request that is answered ends the loop with the answer. *)
Lemma retry_loop_returns (attempt : nat) (w : World) (t : string) :
  attempt <= maxRetries ->
  chat_sendMessage env (chat_requests (trace w)) chat msg = inr t ->
  retry_loop env maxRetries busy retrying exhausted chat msg attempt w
  = (Normal t, log (ChatSendMessage chat msg) w).
Proof.
  intros Hle Hans. rewrite retry_loop_body.
  apply Nat.leb_le in Hle. rewrite Hle.
  unfold chat_send. rewrite Hans. reflexivity.
Qed.

(** A rate-limited failure with budget left: status, wait, next turn. *)
Lemma retry_loop_backs_off (attempt : nat) (w : World) (e : Js.Error) :
  attempt < maxRetries ->
  chat_sendMessage env (chat_requests (trace w)) chat msg = inl e ->
  is429 e = true ->
  retry_loop env maxRetries busy retrying exhausted chat msg attempt w
  = retry_loop env maxRetries busy retrying exhausted chat msg (S attempt)
      (back_off busy retrying (log (ChatSendMessage chat msg) w)).
Proof.
  intros Hlt Hans H429. rewrite retry_loop_body.
  assert (Hle : (attempt <=? maxRetries)%nat = true) by (apply Nat.leb_le; lia).
  apply Nat.ltb_lt in Hlt. rewrite Hle.
  unfold chat_send. rewrite Hans, H429, Hlt. reflexivity.
Qed.

(** Any other failure, and a failure with no budget left, is thrown
    again as it is. *)
Lemma retry_loop_rethrows (attempt : nat) (w : World) (e : Js.Error) :
  attempt <= maxRetries ->
  chat_sendMessage env (chat_requests (trace w)) chat msg = inl e ->
  is429 e && (attempt <? maxRetries)%nat = false ->
  retry_loop env maxRetries busy retrying exhausted chat msg attempt w
  = (Throw e, log (ChatSendMessage chat msg) w).
Proof.
  intros Hle Hans Hno. rewrite retry_loop_body.
  apply Nat.leb_le in Hle. rewrite Hle.
  unfold chat_send. rewrite Hans, Hno. reflexivity.
Qed.
End RetryFacts.

Lemma backoff_counts (busy : string) (retrying : option string) :
  chat_requests (backoff_events busy retrying) = 0
  /\ groq_requests (backoff_events busy retrying) = 0
  /\ vision_requests (backoff_events busy retrying) = 0
  /\ sleeps (backoff_events busy retrying) = 1.
Proof. destruct retrying; repeat split. Qed.

Lemma attempts_counts (busy : string) (retrying : option string) (chat : Chat.t)
    (msg : string) (k : nat) :
  chat_requests (attempts_trace busy retrying chat msg k) = S k
  /\ groq_requests (attempts_trace busy retrying chat msg k) = 0
  /\ vision_requests (attempts_trace busy retrying chat msg k) = 0
  /\ sleeps (attempts_trace busy retrying chat msg k) = k.
Proof.
  destruct (backoff_counts busy retrying) as (Hc & Hg & Hv & Hs).
  induction k as [|k (IHc & IHg & IHv & IHs)]; [repeat split|].
  cbn [attempts_trace chat_requests groq_requests vision_requests sleeps].
  rewrite chat_requests_app, groq_requests_app, vision_requests_app, sleeps_app.
  rewrite Hc, Hg, Hv, Hs, IHc, IHg, IHv, IHs. repeat split.
Qed.

Section RetryRuns.
Variable env : Env.
Variable maxRetries : nat.
Variable busy : string.
Variable retrying : option string.
Variable exhausted : string.
Variable chat : Chat.t.
Variable msg : string.

(** A run of the loop from any turn: it makes [S k] requests, all
    the same, with a back-off between two of them; the first [k]
    answers are rate-limited failures, and the last answer is the
    outcome. *)
Lemma retry_loop_run (attempt : nat) (w : World) :
  attempt <= maxRetries ->
  exists k,
    attempt + k <= maxRetries
    /\ trace (snd (retry_loop env maxRetries busy retrying exhausted chat msg attempt w))
       = (trace w ++ attempts_trace busy retrying chat msg k)%list
    /\ (forall i, i < k ->
          exists e, chat_sendMessage env (chat_requests (trace w) + i) chat msg = inl e
                    /\ is429 e = true)
    /\ match chat_sendMessage env (chat_requests (trace w) + k) chat msg with
       | inr t =>
           fst (retry_loop env maxRetries busy retrying exhausted chat msg attempt w)
           = Normal t
       | inl e =>
           fst (retry_loop env maxRetries busy retrying exhausted chat msg attempt w)
           = Throw e
           /\ (is429 e = false \/ attempt + k = maxRetries)
       end.
Proof.
  remember (maxRetries - attempt) as budget eqn:Hb.
  revert attempt w Hb.
  induction budget as [|budget IH]; intros attempt w Hb Hle.
  - (* no budget left: this request is the last *)
    exists 0. rewrite !Nat.add_0_r.
    split; [lia|].
    destruct (chat_sendMessage env (chat_requests (trace w)) chat msg) as [e|t] eqn:Hans.
    + rewrite (retry_loop_rethrows env maxRetries busy retrying exhausted chat msg
                 attempt w e Hle Hans).
      * simpl. repeat split; [intros i Hi; lia | right; lia].
      * assert (Hno : (attempt <? maxRetries)%nat = false) by (apply Nat.ltb_ge; lia).
        rewrite Hno. apply andb_false_r.
    + rewrite (retry_loop_returns env maxRetries busy retrying exhausted chat msg
                 attempt w t Hle Hans).
      simpl. repeat split. intros i Hi; lia.
  - destruct (chat_sendMessage env (chat_requests (trace w)) chat msg) as [e|t] eqn:Hans.
    + destruct (is429 e) eqn:H429.
      * (* rate-limited, budget left: back off and go on *)
        assert (Hlt : attempt < maxRetries) by lia.
        rewrite (retry_loop_backs_off env maxRetries busy retrying exhausted chat msg
                   attempt w e Hlt Hans H429).
        set (w2 := back_off busy retrying (log (ChatSendMessage chat msg) w)).
        assert (Hn : chat_requests (trace w2) = S (chat_requests (trace w))).
        { unfold w2. rewrite back_off_trace. simpl.
          rewrite !chat_requests_app. simpl.
          unfold backoff_events. destruct retrying; simpl; lia. }
        destruct (IH (S attempt) w2) as (k & Hk & Htr & Hfirst & Hlast); [lia | lia |].
        exists (S k). split; [lia|]. split; [|split].
        -- rewrite Htr. unfold w2. rewrite back_off_trace. simpl.
           rewrite <- !app_assoc. reflexivity.
        -- intros [|i] Hi.
           ++ exists e. rewrite Nat.add_0_r. now split.
           ++ destruct (Hfirst i) as (e' & He' & H'); [lia|].
              exists e'. split; [|exact H'].
              rewrite <- He', Hn. f_equal. lia.
        -- rewrite Hn in Hlast.
           replace (chat_requests (trace w) + S k) with (S (chat_requests (trace w)) + k)
             by lia.
           destruct (chat_sendMessage env (S (chat_requests (trace w)) + k) chat msg)
             as [e'|t']; [|exact Hlast].
           destruct Hlast as [Hthrow Hwhy]. split; [exact Hthrow|].
           destruct Hwhy as [Hwhy|Hwhy]; [now left | right; lia].
      * exists 0. rewrite !Nat.add_0_r. rewrite Hans.
        rewrite (retry_loop_rethrows env maxRetries busy retrying exhausted chat msg
                   attempt w e Hle Hans) by (now rewrite H429).
        simpl. split; [lia|]. repeat split; [intros i Hi; lia | now left].
    + exists 0. rewrite !Nat.add_0_r. rewrite Hans.
      rewrite (retry_loop_returns env maxRetries busy retrying exhausted chat msg
                 attempt w t Hle Hans).
      simpl. split; [lia|]. repeat split. intros i Hi; lia.
Qed.

(** The statement after the loop is never reached from a turn within
    the budget: the outcome does not depend on its message. *)
Lemma retry_loop_never_exhausted (exhausted' : string) (attempt : nat) (w : World) :
  attempt <= maxRetries ->
  retry_loop env maxRetries busy retrying exhausted chat msg attempt w
  = retry_loop env maxRetries busy retrying exhausted' chat msg attempt w.
Proof.
  remember (maxRetries - attempt) as budget eqn:Hb.
  revert attempt w Hb.
  induction budget as [|budget IH]; intros attempt w Hb Hle;
    rewrite (retry_loop_body env maxRetries busy retrying exhausted),
            (retry_loop_body env maxRetries busy retrying exhausted');
    assert (Hin : (attempt <=? maxRetries)%nat = true) by (now apply Nat.leb_le);
    rewrite Hin;
    destruct (chat_send env chat msg w) as [[t|e] w1]; try reflexivity.
  - assert (Hno : (attempt <? maxRetries)%nat = false) by (apply Nat.ltb_ge; lia).
    rewrite Hno, andb_false_r. reflexivity.
  - destruct (is429 e && (attempt <? maxRetries)%nat) eqn:Hgo; [|reflexivity].
    apply andb_prop in Hgo as [_ Hlt]. apply Nat.ltb_lt in Hlt.
    apply IH; lia.
Qed.
End RetryRuns.

(** C7, as stated, fails: a server fault with status 500, no rate
    limit, whose message holds the digits 429 is not thrown at once; the
    loop sets the busy status, waits 3000 ms and sends the request
    again. *)
Lemma retry_on_429_in_message :
  let run :=
    retry_loop Demo2.faulty 1 "Server busy. Retrying backup connection..." None
      "Max retries exceeded on fallback." Demo.chat "2x = 4" 0 (start Demo.idle) in
  chat_sendMessage Demo2.faulty 0 Demo.chat "2x = 4" = inl Demo2.serverFault
  /\ Js.status Demo2.serverFault = Some 500%Z
  /\ trace (snd run)
     = [ChatSendMessage Demo.chat "2x = 4";
        SetStatusMessage (Some "Server busy. Retrying backup connection...");
        Sleep 3000;
        ChatSendMessage Demo.chat "2x = 4"]
  /\ run <> (Throw Demo2.serverFault,
             log (ChatSendMessage Demo.chat "2x = 4") (start Demo.idle)).
Proof.
  cbv zeta.
  split; [reflexivity|]. split; [reflexivity|]. split; [reflexivity|].
  intros H. apply (f_equal (fun r => length (trace (snd r)))) in H.
  vm_compute in H. discriminate H.
Qed.

(** C7, amended.  The loop takes a failure for rate-limited exactly
    when its message holds ["429"] or its status is 429.  Such a
    failure at the first request, with budget left, is followed by the
    status, a wait of 3000 ms and the same request again; any other
    failure is thrown at once with nothing after the request.  A whole
    run makes the same request [S k] times, [k <= maxRetries], each of
    the first [k] having failed that way; a failure of the last one is
    thrown, and then it is not of that kind or the budget is spent. *)
Theorem retry_policy_run (env : Env) (maxRetries : nat) (busy : string)
    (retrying : option string) (exhausted : string) (chat : Chat.t) (msg : string)
    (w : World) :
  let run := retry_loop env maxRetries busy retrying exhausted chat msg 0 w in
  let first := chat_requests (trace w) in
  (forall e,
     is429 e = true
     <-> (exists m, Js.message e = Some m /\ Js.includes "429" m = true)
         \/ Js.status e = Some 429%Z)
  /\ (forall e,
        0 < maxRetries ->
        chat_sendMessage env first chat msg = inl e ->
        is429 e = true ->
        exists rest,
          trace (snd run)
          = (trace w
             ++ ChatSendMessage chat msg
                :: SetStatusMessage (Some busy) :: Sleep 3000
                :: match retrying with
                   | Some s => [SetStatusMessage (Some s)]
                   | None => []
                   end
                ++ ChatSendMessage chat msg :: rest)%list)
  /\ (forall e,
        chat_sendMessage env first chat msg = inl e ->
        is429 e = false ->
        run = (Throw e, log (ChatSendMessage chat msg) w))
  /\ exists k,
       k <= maxRetries
       /\ trace (snd run) = (trace w ++ attempts_trace busy retrying chat msg k)%list
       /\ sleeps (attempts_trace busy retrying chat msg k) = k
       /\ (forall i, i < k ->
             exists e, chat_sendMessage env (first + i) chat msg = inl e
                       /\ is429 e = true)
       /\ match chat_sendMessage env (first + k) chat msg with
          | inr t => fst run = Normal t
          | inl e => fst run = Throw e /\ (is429 e = false \/ k = maxRetries)
          end.
Proof.
  intros run first. split; [|split; [|split]].
  - intros e. unfold is429. split.
    + intros H. apply orb_prop in H as [H|H].
      * left. destruct (Js.message e) as [m|]; [|discriminate H].
        exists m. split; [reflexivity | exact H].
      * right. destruct (Js.status e) as [st|]; [|discriminate H].
        apply Z.eqb_eq in H. now subst.
    + intros [(m & Hm & Hin) | Hst].
      * rewrite Hm, Hin. reflexivity.
      * rewrite Hst. apply orb_true_r.
  - intros e Hbudget Hans H429. unfold run.
    rewrite (retry_loop_backs_off env maxRetries busy retrying exhausted chat msg
               0 w e Hbudget Hans H429).
    destruct (retry_loop_run env maxRetries busy retrying exhausted chat msg 1
                (back_off busy retrying (log (ChatSendMessage chat msg) w)))
      as (k & _ & Htr & _); [lia|].
    rewrite Htr, back_off_trace. cbn [log trace].
    exists (tl (attempts_trace busy retrying chat msg k)).
    rewrite <- !app_assoc. unfold backoff_events.
    destruct k; cbn; reflexivity.
  - intros e Hans Hother. unfold run.
    apply retry_loop_rethrows; [lia | exact Hans | now rewrite Hother].
  - destruct (retry_loop_run env maxRetries busy retrying exhausted chat msg 0 w)
      as (k & Hk & Htr & Hfirst & Hlast); [lia|].
    exists k. split; [exact Hk|]. split; [exact Htr|]. split; [|split].
    + apply attempts_counts.
    + exact Hfirst.
    + exact Hlast.
Qed.

Lemma retry_policy_run_throttled :
  0 < 1
  /\ chat_sendMessage Demo.throttled 0 Demo.chat "2x = 4" = inl Demo.rateLimited
  /\ Js.status Demo.rateLimited = Some 429%Z
  /\ exists rest,
       trace (snd (retry_loop Demo.throttled 1
                     "Server busy. Retrying backup connection..." None
                     "Max retries exceeded on fallback." Demo.chat "2x = 4"
                     0 (start Demo.idle)))
       = ([] ++ ChatSendMessage Demo.chat "2x = 4"
                :: SetStatusMessage (Some "Server busy. Retrying backup connection...")
                :: Sleep 3000
                :: [] ++ ChatSendMessage Demo.chat "2x = 4" :: rest)%list.
Proof.
  split; [lia|]. split; [reflexivity|]. split; [reflexivity|].
  apply (retry_policy_run Demo.throttled 1 "Server busy. Retrying backup connection..."
           None "Max retries exceeded on fallback." Demo.chat "2x = 4"
           (start Demo.idle) : _ /\ _ /\ _ /\ _) with (e := Demo.rateLimited).
  - lia.
  - reflexivity.
  - apply (retry_policy_run Demo.throttled 1 "Server busy. Retrying backup connection..."
             None "Max retries exceeded on fallback." Demo.chat "2x = 4"
             (start Demo.idle)).
    right. reflexivity.
Defined.

(** C4, as stated, fails: when every request is throttled, the loops
    of both hooks make two requests and throw the error of the second
    one, which is not the error of the statement after the loop. *)
Lemma retry_exhaustion_not_distinct :
  let fallback :=
    retry_loop Demo.throttled 1 "Server busy. Retrying backup connection..." None
      "Max retries exceeded on fallback." Demo.chat "2x = 4" 0 (start Demo.idle) in
  let gemini :=
    UseGemini.sendMessage Demo.subjectValue Demo.throttled "2x = 4" MATH []
      (start Demo.idle) in
  is429 Demo.rateLimited = true
  /\ chat_requests (trace (snd fallback)) = 2
  /\ fst fallback = Throw Demo.rateLimited
  /\ fst fallback <> Throw (Js.new_Error "Max retries exceeded on fallback.")
  /\ chat_requests (trace (snd gemini)) = 2
  /\ fst gemini = Throw Demo.rateLimited
  /\ fst gemini <> Throw (Js.new_Error "Max retries exceeded.").
Proof.
  cbv zeta.
  split; [reflexivity|]. split; [reflexivity|]. split; [reflexivity|].
  split; [discriminate|]. split; [reflexivity|]. split; [reflexivity|].
  discriminate.
Qed.

(** C4, amended.  With a budget of one retry, when the first two
    requests fail rate-limited the loop makes exactly two requests, one
    back-off between them, and throws the error of the second request;
    the error after the loop is not thrown, whatever its message. *)
Theorem retry_exhaustion_rethrows (env : Env) (busy : string) (retrying : option string)
    (exhausted : string) (chat : Chat.t) (msg : string) (w : World) (e0 e1 : Js.Error) :
  chat_sendMessage env (chat_requests (trace w)) chat msg = inl e0 ->
  is429 e0 = true ->
  chat_sendMessage env (S (chat_requests (trace w))) chat msg = inl e1 ->
  is429 e1 = true ->
  let run := retry_loop env 1 busy retrying exhausted chat msg 0 w in
  fst run = Throw e1
  /\ trace (snd run)
     = (trace w ++ ChatSendMessage chat msg
                   :: backoff_events busy retrying ++ [ChatSendMessage chat msg])%list
  /\ chat_requests (trace (snd run)) = chat_requests (trace w) + 2
  /\ forall exhausted',
       retry_loop env 1 busy retrying exhausted' chat msg 0 w = run.
Proof.
  intros H0 L0 H1 L1 run.
  assert (Hrun : run = (Throw e1,
                        log (ChatSendMessage chat msg)
                            (back_off busy retrying (log (ChatSendMessage chat msg) w)))).
  { unfold run.
    rewrite (retry_loop_backs_off env 1 busy retrying exhausted chat msg 0 w e0
               (Nat.lt_0_1) H0 L0).
    apply retry_loop_rethrows; [lia | | now rewrite L1].
    rewrite back_off_trace. cbn [log trace].
    rewrite !chat_requests_app, (proj1 (backoff_counts busy retrying)).
    cbn [chat_requests]. rewrite Nat.add_0_r, Nat.add_1_r. exact H1. }
  split; [now rewrite Hrun|]. split; [|split].
  - rewrite Hrun. cbn [snd log trace]. rewrite back_off_trace. cbn [log trace].
    rewrite <- !app_assoc. reflexivity.
  - rewrite Hrun. cbn [snd log trace]. rewrite back_off_trace. cbn [log trace].
    rewrite !chat_requests_app, (proj1 (backoff_counts busy retrying)).
    cbn [chat_requests]. lia.
  - intros exhausted'. unfold run. apply retry_loop_never_exhausted. lia.
Qed.

Lemma retry_exhaustion_rethrows_throttled :
  fst (retry_loop Demo.throttled 1 "Server is busy (High Traffic). Retrying in 3 seconds..."
         (Some "Retrying now...") "Max retries exceeded." Demo.chat "2x = 4"
         0 (start Demo.idle))
  = Throw Demo.rateLimited.
Proof.
  apply (retry_exhaustion_rethrows Demo.throttled
           "Server is busy (High Traffic). Retrying in 3 seconds..."
           (Some "Retrying now...") "Max retries exceeded." Demo.chat "2x = 4"
           (start Demo.idle) Demo.rateLimited Demo.rateLimited).
  - reflexivity.
  - reflexivity.
  - reflexivity.
  - reflexivity.
Defined.

(** ** The router of useAI *)

(** Unfolds a hook down to its provider requests and its retry loop. *)
Ltac run_hook :=
  cbv beta iota zeta delta
    [UseAI.sendMessage UseGemini.sendMessage bind try_catch try_finally ret throw act
     setIsLoading setError setStatusMessage groq_chat_completions_create
     model_generateContent start].

(** The loop never touches [isLoading]. *)
Lemma retry_loop_isLoading (env : Env) (maxRetries : nat) (busy : string)
    (retrying : option string) (exhausted : string) (chat : Chat.t) (msg : string)
    (attempt : nat) (w : World) :
  isLoading (react (snd (retry_loop env maxRetries busy retrying exhausted chat msg
                           attempt w)))
  = isLoading (react w).
Proof.
  remember (S maxRetries - attempt) as budget eqn:Hb.
  revert attempt w Hb.
  induction budget as [|budget IH]; intros attempt w Hb; rewrite retry_loop_body.
  - assert (Hout : (attempt <=? maxRetries)%nat = false) by (apply Nat.leb_gt; lia).
    rewrite Hout. reflexivity.
  - destruct (attempt <=? maxRetries)%nat; [|reflexivity].
    unfold chat_send.
    destruct (chat_sendMessage env (chat_requests (trace w)) chat msg) as [e|t];
      [|reflexivity].
    destruct (is429 e && (attempt <? maxRetries)%nat) eqn:Hgo; [|reflexivity].
    apply andb_prop in Hgo as [_ Hlt]. apply Nat.ltb_lt in Hlt.
    rewrite IH by lia.
    unfold back_off. destruct retrying; reflexivity.
Qed.

(** With a budget of one retry, a fallback that answers within its
    budget makes the loop return that answer. *)
Lemma fallback_answers_run (env : Env) (busy : string) (retrying : option string)
    (exhausted : string) (chat : Chat.t) (msg : string) (w : World) (t : string) :
  chat_requests (trace w) = 0 ->
  fallback_answers env chat msg t ->
  exists w', retry_loop env 1 busy retrying exhausted chat msg 0 w = (Normal t, w').
Proof.
  intros Hw [Hfirst | (e & Hfirst & H429 & Hsecond)].
  - eexists. apply retry_loop_returns; [lia | now rewrite Hw].
  - eexists.
    rewrite (retry_loop_backs_off env 1 busy retrying exhausted chat msg 0 w e)
      by (try lia; try assumption; now rewrite Hw).
    apply retry_loop_returns; [lia|].
    rewrite back_off_trace. cbn [log trace].
    rewrite !chat_requests_app, (proj1 (backoff_counts busy retrying)), Hw.
    exact Hsecond.
Qed.








(** The fallback block, counted: from a world without chat requests
    and without waits, the loop with a budget of one retry makes one or
    two requests, waits once between two of them, and makes the second
    one exactly when the first failed rate-limited. *)
Lemma fallback_loop_counts (env : Env) (busy : string) (retrying : option string)
    (exhausted : string) (chat : Chat.t) (msg : string) (w : World) :
  chat_requests (trace w) = 0 ->
  sleeps (trace w) = 0 ->
  let tr := trace (snd (retry_loop env 1 busy retrying exhausted chat msg 0 w)) in
  1 <= chat_requests tr <= 2
  /\ sleeps tr = chat_requests tr - 1
  /\ groq_requests tr = groq_requests (trace w)
  /\ vision_requests tr = vision_requests (trace w)
  /\ (forall e, chat_sendMessage env 0 chat msg = inl e -> is429 e = true ->
                chat_requests tr = 2).
Proof.
  intros Hc Hs tr. subst tr.
  destruct (retry_loop_run env 1 busy retrying exhausted chat msg 0 w)
    as (k & Hk & -> & _ & Hlast); [lia|].
  destruct (attempts_counts busy retrying chat msg k) as (Ac & Ag & Av & As).
  rewrite chat_requests_app, sleeps_app, groq_requests_app, vision_requests_app.
  rewrite Hc, Hs, Ac, Ag, Av, As.
  repeat split; try lia.
  intros e He H429. rewrite Hc in Hlast.
  destruct k as [|k]; [|lia].
  cbn [Nat.add] in Hlast. rewrite He in Hlast.
  destruct Hlast as [_ [Hno | Hk1]]; [congruence | discriminate Hk1].
Qed.

(** C3, on useAI: no path of [sendMessage] sets [isLoading] back to
    false, and the fallback leaves its status standing.  At a request
    that Groq throttles and Gemini answers, the call returns the answer
    with the hook still busy and the status still set. *)
Theorem useAI_never_settles :
  (forall (subjectValue : Subject -> string) (env : Env) (text : string)
          (subject : Subject) (previousMessages : list Message.t)
          (attachment : option Attachment.t) (st : ReactState),
      isLoading (react (snd (UseAI.sendMessage subjectValue env text subject
                               previousMessages attachment (start st))))
      = true)
  /\ (let run :=
        UseAI.sendMessage Demo.subjectValue Demo.groq_down "2x = 4" MATH [] None
          (start Demo.idle) in
      fst run = Normal "x = 2"
      /\ isLoading (react (snd run)) = true
      /\ statusMessage (react (snd run))
         = Some "Traffic high. Switching to backup AI...").
Proof.
  split; [|cbv zeta; repeat split].
  intros subjectValue env text subject previousMessages attachment st.
  assert (Hfallback :
    forall w handler,
      isLoading (react w) = true ->
      isLoading (react (snd (
        let (c, w') :=
          (if negb (Js.truthy (VITE_GEMINI_API_KEY env))
           then fun w : World => (Throw (Js.new_Error "Gemini API Key missing"), w)
           else retry_loop env 1 "Server busy. Retrying backup connection..." None
                  "Max retries exceeded on fallback."
                  (UseAI.fallbackChat subjectValue subject previousMessages)
                  (UseAI.fallbackPrompt text attachment) 0) w in
        match c with
        | Normal a => (Normal a, w')
        | Throw e => (Throw e, set_error (handler e) w')
        end))) = true).
  { intros w handler Hw.
    destruct (Js.truthy (VITE_GEMINI_API_KEY env)); cbn [negb]; [|exact Hw].
    pose proof (retry_loop_isLoading env 1 "Server busy. Retrying backup connection..."
                  None "Max retries exceeded on fallback."
                  (UseAI.fallbackChat subjectValue subject previousMessages)
                  (UseAI.fallbackPrompt text attachment) 0 w) as Hloop.
    destruct (retry_loop _ _ _ _ _ _ _ _ _) as [[t|e] w']; cbn in *; congruence. }
  run_hook.
  destruct (UseAI.type_is image attachment).
  - destruct (Js.truthy (VITE_GEMINI_API_KEY env)); cbn [negb]; [|reflexivity].
    destruct (generateContent _ _ _); reflexivity.
  - destruct (Js.truthy (VITE_GROQ_API_KEY env)); cbn [negb].
    + destruct (groq_create _ _) as [e|content].
      * apply (Hfallback _ (fun e => Some (Js.or_else (Js.message e)
                                             "All AI services are currently busy."))).
        reflexivity.
      * destruct (Js.truthy content); cbn [negb]; [reflexivity|].
        apply (Hfallback _ (fun e => Some (Js.or_else (Js.message e)
                                             "All AI services are currently busy."))).
        reflexivity.
    + apply (Hfallback _ (fun e => Some (Js.or_else (Js.message e)
                                           "All AI services are currently busy."))).
      reflexivity.
Qed.

(** The sibling hook does what C3 says: the [finally] block of useGemini
    leaves [isLoading] false and the status cleared on every path. *)
Lemma useGemini_settles (subjectValue : Subject -> string) (env : Env) (text : string)
    (subject : Subject) (previousMessages : list Message.t) (st : ReactState) :
  let run := UseGemini.sendMessage subjectValue env text subject previousMessages
               (start st) in
  isLoading (react (snd run)) = false /\ statusMessage (react (snd run)) = None.
Proof.
  cbv zeta. run_hook.
  destruct (Js.truthy (VITE_GEMINI_API_KEY env)); cbn [negb]; [|split; reflexivity].
  destruct (retry_loop _ _ _ _ _ _ _ _ _) as [[t|e] w']; split; reflexivity.
Qed.

(** The fallback block of useAI (lines 116-164), counted from a world
    in which no chat request and no wait has happened yet. *)
Lemma fallback_block_counts (subjectValue : Subject -> string) (env : Env)
    (text : string) (subject : Subject) (previousMessages : list Message.t)
    (attachment : option Attachment.t) (handler : Js.Error -> option string)
    (w : World) :
  chat_requests (trace w) = 0 ->
  sleeps (trace w) = 0 ->
  let chat := UseAI.fallbackChat subjectValue subject previousMessages in
  let msg := UseAI.fallbackPrompt text attachment in
  let tr :=
    trace (snd (
      let (c, w') :=
        (if negb (Js.truthy (VITE_GEMINI_API_KEY env))
         then fun w : World => (Throw (Js.new_Error "Gemini API Key missing"), w)
         else retry_loop env 1 "Server busy. Retrying backup connection..." None
                "Max retries exceeded on fallback." chat msg 0) w in
      match c with
      | Normal a => (Normal a, w')
      | Throw e => (Throw e, set_error (handler e) w')
      end)) in
  groq_requests tr = groq_requests (trace w)
  /\ vision_requests tr = vision_requests (trace w)
  /\ chat_requests tr <= 2
  /\ sleeps tr = chat_requests tr - 1
  /\ (Js.truthy (VITE_GEMINI_API_KEY env) = true ->
      1 <= chat_requests tr
      /\ forall e, chat_sendMessage env 0 chat msg = inl e -> is429 e = true ->
                   chat_requests tr = 2 /\ sleeps tr = 1).
Proof.
  intros Hc Hs chat msg tr. subst tr.
  destruct (Js.truthy (VITE_GEMINI_API_KEY env)); cbn [negb].
  - pose proof (fallback_loop_counts env "Server busy. Retrying backup connection..."
                  None "Max retries exceeded on fallback." chat msg w Hc Hs)
      as (Hn & Hsl & Hg & Hv & Htwice).
    destruct (retry_loop _ _ _ _ _ _ _ _ _) as [[t|e] w']; cbn [snd set_error trace] in *;
      rewrite ?groq_requests_app, ?vision_requests_app, ?chat_requests_app, ?sleeps_app;
      cbn [groq_requests vision_requests chat_requests sleeps];
      rewrite ?Nat.add_0_r.
    + split; [exact Hg|]. split; [exact Hv|]. split; [lia|]. split; [exact Hsl|].
      intros _. split; [lia|].
      intros e He H429. specialize (Htwice e He H429). lia.
    + split; [exact Hg|]. split; [exact Hv|]. split; [lia|]. split; [exact Hsl|].
      intros _. split; [lia|].
      intros e' He H429. specialize (Htwice e' He H429). lia.
  - cbn [snd set_error trace].
    rewrite groq_requests_app, vision_requests_app, chat_requests_app, sleeps_app.
    cbn [groq_requests vision_requests chat_requests sleeps].
    rewrite !Nat.add_0_r, Hc, Hs.
    split; [reflexivity|]. split; [reflexivity|]. split; [lia|]. split; [reflexivity|].
    intros Hkey. discriminate Hkey.
Qed.




(** C5, as stated, fails: without a Groq credential the call raises
    no configuration error; it asks the Gemini fallback and returns its
    answer. *)
Lemma missing_groq_key_falls_back :
  let run :=
    UseAI.sendMessage Demo.subjectValue Demo.no_groq_key "2x = 4" MATH [] None
      (start Demo.idle) in
  Js.truthy (VITE_GROQ_API_KEY Demo.no_groq_key) = false
  /\ fst run = Normal "x = 2"
  /\ chat_requests (trace (snd run)) = 1
  /\ error (react (snd run)) = None.
Proof. cbv zeta. repeat split. Qed.

(** C5, amended.  A missing credential is found before any request to
    its provider and is not retried.  A missing Gemini credential, on
    the image route or when the fallback is reached, throws
    [Error("Gemini API Key missing")] to the caller with no request to
    Gemini and no wait.  A missing Groq credential is a fallback
    trigger like any failure of Groq: no request to Groq is made, the
    status announces the switch, and with a Gemini credential the
    fallback is asked and its answer returned. *)
Theorem missing_credentials (subjectValue : Subject -> string) (env : Env)
    (text : string) (subject : Subject) (previousMessages : list Message.t)
    (attachment : option Attachment.t) (st : ReactState) :
  let req := UseAI.groqRequest subjectValue text subject previousMessages attachment in
  let chat := UseAI.fallbackChat subjectValue subject previousMessages in
  let msg := UseAI.fallbackPrompt text attachment in
  let run :=
    UseAI.sendMessage subjectValue env text subject previousMessages attachment
      (start st) in
  (Js.truthy (VITE_GEMINI_API_KEY env) = false ->
   UseAI.type_is image attachment = true \/ primary_fails env req ->
   fst run = Throw (Js.new_Error "Gemini API Key missing")
   /\ error (react (snd run)) = Some "Gemini API Key missing"
   /\ vision_requests (trace (snd run)) = 0
   /\ chat_requests (trace (snd run)) = 0
   /\ sleeps (trace (snd run)) = 0)
  /\ (UseAI.type_is image attachment = false ->
      Js.truthy (VITE_GROQ_API_KEY env) = false ->
      groq_requests (trace (snd run)) = 0
      /\ In (SetStatusMessage (Some "Traffic high. Switching to backup AI..."))
            (trace (snd run))
      /\ (Js.truthy (VITE_GEMINI_API_KEY env) = true ->
          1 <= chat_requests (trace (snd run))
          /\ forall t, fallback_answers env chat msg t -> fst run = Normal t)).
Proof.
  intros req chat msg run. subst run req chat msg. split.
  - intros Hgem Hwhy. run_hook. rewrite Hgem. cbn [negb].
    destruct (UseAI.type_is image attachment).
    + cbn. repeat split.
    + destruct Hwhy as [Himg | Hfail]; [discriminate Himg|].
      destruct (Js.truthy (VITE_GROQ_API_KEY env)) eqn:Hkey; cbn [negb].
      * destruct (groq_create env _) as [e|content] eqn:Hans.
        -- cbn. repeat split.
        -- destruct (Js.truthy content) eqn:Hcontent; cbn [negb].
           ++ destruct Hfail as [Hno | [(e & He) | (c' & Hc' & Hempty)]]; congruence.
           ++ cbn. repeat split.
      * cbn. repeat split.
  - intros Himg Hkey. run_hook. rewrite Himg, Hkey. cbn [negb].
    pose proof (fallback_block_counts subjectValue env text subject previousMessages
                  attachment
                  (fun e => Some (Js.or_else (Js.message e)
                                    "All AI services are currently busy."))
                  (set_statusMessage (Some "Traffic high. Switching to backup AI...")
                     (set_statusMessage None
                        (set_error None
                           (set_isLoading true {| react := st; trace := [] |}))))
                  eq_refl eq_refl) as Hcounts.
    cbv zeta in Hcounts. destruct Hcounts as (Hg & _ & _ & _ & Hretry).
    split; [exact Hg|]. split.
    + match goal with
      | |- In _ (trace (snd (let (c, w') := ?block ?w in _))) =>
          assert (Hext : exists tail, trace (snd (block w)) = (trace w ++ tail)%list)
      end.
      { destruct (Js.truthy (VITE_GEMINI_API_KEY env)); cbn [negb].
        - destruct (retry_loop_run env 1 "Server busy. Retrying backup connection..."
                      None "Max retries exceeded on fallback."
                      (UseAI.fallbackChat subjectValue subject previousMessages)
                      (UseAI.fallbackPrompt text attachment) 0
                      (set_statusMessage
                         (Some "Traffic high. Switching to backup AI...")
                         (set_statusMessage None
                            (set_error None
                               (set_isLoading true {| react := st; trace := [] |})))))
            as (k & _ & Htr & _); [lia|].
          eexists. exact Htr.
        - exists []. cbn. reflexivity. }
      destruct Hext as [tail Hext].
      match goal with
      | |- In _ (trace (snd (let (c, w') := ?r in _))) =>
          destruct r as [[t|e] w']
      end; cbn [snd set_error trace] in *; rewrite Hext; cbn;
        repeat (try (left; reflexivity); right).
    + intros Hgem. split; [now apply Hretry|].
      intros t Hfb. rewrite Hgem. cbn [negb].
      match goal with
      | |- context [retry_loop ?e 1 ?b ?r ?x ?c ?m 0 ?w] =>
          destruct (fallback_answers_run e b r x c m w t eq_refl Hfb) as [w' ->]
      end.
      reflexivity.
Qed.

Lemma missing_credentials_no_gemini_key :
  Js.truthy (VITE_GEMINI_API_KEY Demo.no_gemini_key) = false
  /\ fst (UseAI.sendMessage Demo.subjectValue Demo.no_gemini_key "2x = 4" MATH [] None
            (start Demo.idle))
     = Throw (Js.new_Error "Gemini API Key missing").
Proof.
  split; [reflexivity|].
  apply (missing_credentials Demo.subjectValue Demo.no_gemini_key "2x = 4" MATH [] None
           Demo.idle).
  - reflexivity.
  - right. right. left. exists Demo.rateLimited. reflexivity.
Defined.

(** ** The state a call leaves *)

(** The loop never touches [error]. *)
Lemma retry_loop_error (env : Env) (maxRetries : nat) (busy : string)
    (retrying : option string) (exhausted : string) (chat : Chat.t) (msg : string)
    (attempt : nat) (w : World) :
  error (react (snd (retry_loop env maxRetries busy retrying exhausted chat msg
                       attempt w)))
  = error (react w).
Proof.
  remember (S maxRetries - attempt) as budget eqn:Hb.
  revert attempt w Hb.
  induction budget as [|budget IH]; intros attempt w Hb; rewrite retry_loop_body.
  - assert (Hout : (attempt <=? maxRetries)%nat = false) by (apply Nat.leb_gt; lia).
    rewrite Hout. reflexivity.
  - destruct (attempt <=? maxRetries)%nat; [|reflexivity].
    unfold chat_send.
    destruct (chat_sendMessage env (chat_requests (trace w)) chat msg) as [e|t];
      [|reflexivity].
    destruct (is429 e && (attempt <? maxRetries)%nat) eqn:Hgo; [|reflexivity].
    apply andb_prop in Hgo as [_ Hlt]. apply Nat.ltb_lt in Hlt.
    rewrite IH by lia.
    unfold back_off. destruct retrying; reflexivity.
Qed.

(** With a budget of one retry, a fallback that fails within its
    budget makes the loop throw that failure. *)
Lemma fallback_fails_run (env : Env) (busy : string) (retrying : option string)
    (exhausted : string) (chat : Chat.t) (msg : string) (w : World) (e : Js.Error) :
  chat_requests (trace w) = 0 ->
  fallback_fails env chat msg e ->
  exists w', retry_loop env 1 busy retrying exhausted chat msg 0 w = (Throw e, w').
Proof.
  intros Hw [[Hfirst Hother] | (e0 & Hfirst & H429 & Hsecond)].
  - eexists. apply retry_loop_rethrows; [lia | now rewrite Hw | now rewrite Hother].
  - eexists.
    rewrite (retry_loop_backs_off env 1 busy retrying exhausted chat msg 0 w e0)
      by (try lia; try assumption; now rewrite Hw).
    apply retry_loop_rethrows; [lia | | apply andb_false_r].
    rewrite back_off_trace. cbn [log trace].
    rewrite !chat_requests_app, (proj1 (backoff_counts busy retrying)), Hw.
    exact Hsecond.
Qed.

Lemma loading_after_app (busy : bool) (tr1 tr2 : list Event) :
  loading_after busy (tr1 ++ tr2) = loading_after (loading_after busy tr1) tr2.
Proof.
  revert busy. induction tr1 as [|ev tr1 IH]; intros busy; [reflexivity|].
  destruct ev; simpl; apply IH.
Qed.

Lemma busy_throughout_app (busy : bool) (tr1 tr2 : list Event) :
  busy_throughout busy (tr1 ++ tr2)
  = busy_throughout busy tr1 && busy_throughout (loading_after busy tr1) tr2.
Proof.
  revert busy. induction tr1 as [|ev tr1 IH]; intros busy; [reflexivity|].
  destruct ev; simpl; rewrite IH; try reflexivity; apply andb_assoc.
Qed.

Lemma attempts_busy (busy : string) (retrying : option string) (chat : Chat.t)
    (msg : string) (k : nat) :
  busy_throughout true (attempts_trace busy retrying chat msg k) = true
  /\ forall b, loading_after b (attempts_trace busy retrying chat msg k) = b.
Proof.
  induction k as [|k [IHb IHl]]; [split; reflexivity|].
  cbn [attempts_trace]. split.
  - cbn [busy_throughout andb]. rewrite busy_throughout_app.
    replace (loading_after true (backoff_events busy retrying)) with true
      by (destruct retrying; reflexivity).
    rewrite IHb. destruct retrying; reflexivity.
  - intros b. cbn [loading_after]. rewrite loading_after_app, IHl.
    destruct retrying; reflexivity.
Qed.

(** The loop of a hook, read from a world in which the hook is busy. *)
Lemma retry_loop_busy (env : Env) (busy : string) (retrying : option string)
    (exhausted : string) (chat : Chat.t) (msg : string) (w : World) (b : bool) :
  busy_throughout b (trace w) = true ->
  loading_after b (trace w) = true ->
  let tr := trace (snd (retry_loop env 1 busy retrying exhausted chat msg 0 w)) in
  busy_throughout b tr = true /\ loading_after b tr = true.
Proof.
  intros Hb Hl tr. subst tr.
  destruct (retry_loop_run env 1 busy retrying exhausted chat msg 0 w)
    as (k & _ & -> & _); [lia|].
  destruct (attempts_busy busy retrying chat msg k) as [Ab Al].
  rewrite busy_throughout_app, loading_after_app, Hb, Hl, Ab, Al. split; reflexivity.
Qed.

Lemma or_else_non_empty (v : option string) (d : string) :
  d <> "" -> Js.or_else v d <> "".
Proof.
  intros Hd. destruct v as [[|c s]|]; simpl; [exact Hd | discriminate | exact Hd].
Qed.

(** X1.  useAI, a request without an image: when Groq fails and the
    Gemini fallback fails within its retry budget, [sendMessage] throws
    the error of the last request to the fallback and records its
    message, or the default text when it has none. *)
Theorem text_route_all_hops_fail (subjectValue : Subject -> string) (env : Env)
    (text : string) (subject : Subject) (previousMessages : list Message.t)
    (attachment : option Attachment.t) (st : ReactState) (e : Js.Error) :
  UseAI.type_is image attachment = false ->
  primary_fails env
    (UseAI.groqRequest subjectValue text subject previousMessages attachment) ->
  Js.truthy (VITE_GEMINI_API_KEY env) = true ->
  fallback_fails env (UseAI.fallbackChat subjectValue subject previousMessages)
    (UseAI.fallbackPrompt text attachment) e ->
  let run :=
    UseAI.sendMessage subjectValue env text subject previousMessages attachment
      (start st) in
  fst run = Throw e
  /\ error (react (snd run))
     = Some (Js.or_else (Js.message e) "All AI services are currently busy.").
Proof.
  intros Himg Hfail Hgem Hfb run. subst run.
  run_hook. rewrite Himg, Hgem. cbn [negb].
  assert (Hblock :
    forall w, chat_requests (trace w) = 0 ->
      let r :=
        (let (c, w') :=
           retry_loop env 1 "Server busy. Retrying backup connection..." None
             "Max retries exceeded on fallback."
             (UseAI.fallbackChat subjectValue subject previousMessages)
             (UseAI.fallbackPrompt text attachment) 0 w in
         match c with
         | Normal a => (Normal a, w')
         | Throw e =>
             (Throw e,
              set_error (Some (Js.or_else (Js.message e)
                                 "All AI services are currently busy.")) w')
         end) in
      fst r = Throw e
      /\ error (react (snd r))
         = Some (Js.or_else (Js.message e) "All AI services are currently busy.")).
  { intros w Hw.
    destruct (fallback_fails_run env "Server busy. Retrying backup connection..." None
                "Max retries exceeded on fallback."
                (UseAI.fallbackChat subjectValue subject previousMessages)
                (UseAI.fallbackPrompt text attachment) w e Hw Hfb) as [w' ->].
    split; reflexivity. }
  destruct (Js.truthy (VITE_GROQ_API_KEY env)) eqn:Hkey; cbn [negb].
  - destruct Hfail as [Hno | [(e' & Herr) | (content & Hans & Hempty)]].
    + congruence.
    + rewrite Herr. apply Hblock. reflexivity.
    + rewrite Hans, Hempty. cbn [negb]. apply Hblock. reflexivity.
  - apply Hblock. reflexivity.
Qed.

Lemma text_route_all_hops_fail_refusing :
  fst (UseAI.sendMessage Demo.subjectValue Demo.refusing "2x = 4" MATH [] None
         (start Demo.idle))
  = Throw Demo.forbidden.
Proof.
  apply (text_route_all_hops_fail Demo.subjectValue Demo.refusing "2x = 4" MATH [] None
           Demo.idle Demo.forbidden).
  - reflexivity.
  - right. left. exists Demo.forbidden. reflexivity.
  - reflexivity.
  - left. split; reflexivity.
Defined.

(** X2.  useAI: [error] is set exactly when [sendMessage] throws.  A
    call that returns leaves it cleared; a call that throws leaves the
    message of the thrown error in it, or the default text of its route
    when the error has no message, so never the empty string. *)
Theorem useAI_error_state (subjectValue : Subject -> string) (env : Env)
    (text : string) (subject : Subject) (previousMessages : list Message.t)
    (attachment : option Attachment.t) (st : ReactState) :
  let run :=
    UseAI.sendMessage subjectValue env text subject previousMessages attachment
      (start st) in
  match fst run with
  | Normal _ => error (react (snd run)) = None
  | Throw e =>
      error (react (snd run))
      = Some (Js.or_else (Js.message e)
                (if UseAI.type_is image attachment
                 then "Failed to analyze image."
                 else "All AI services are currently busy."))
      /\ error (react (snd run)) <> Some ""
  end.
Proof.
  cbv zeta.
  assert (Hblock :
    forall w, error (react w) = None ->
      let r :=
        (let (c, w') :=
           (if negb (Js.truthy (VITE_GEMINI_API_KEY env))
            then fun w : World => (Throw (Js.new_Error "Gemini API Key missing"), w)
            else retry_loop env 1 "Server busy. Retrying backup connection..." None
                   "Max retries exceeded on fallback."
                   (UseAI.fallbackChat subjectValue subject previousMessages)
                   (UseAI.fallbackPrompt text attachment) 0) w in
         match c with
         | Normal a => (Normal a, w')
         | Throw e =>
             (Throw e,
              set_error (Some (Js.or_else (Js.message e)
                                 "All AI services are currently busy.")) w')
         end) in
      match fst r with
      | Normal _ => error (react (snd r)) = None
      | Throw e =>
          error (react (snd r))
          = Some (Js.or_else (Js.message e) "All AI services are currently busy.")
          /\ error (react (snd r)) <> Some ""
      end).
  { intros w Hw.
    destruct (Js.truthy (VITE_GEMINI_API_KEY env)); cbn [negb].
    - pose proof (retry_loop_error env 1 "Server busy. Retrying backup connection..."
                    None "Max retries exceeded on fallback."
                    (UseAI.fallbackChat subjectValue subject previousMessages)
                    (UseAI.fallbackPrompt text attachment) 0 w) as Hloop.
      destruct (retry_loop _ _ _ _ _ _ _ _ _) as [[t|e] w']; cbn in *.
      + congruence.
      + split; [reflexivity|]. intros H. injection H as H.
        now apply or_else_non_empty in H.
    - cbn. split; [reflexivity | discriminate]. }
  run_hook.
  destruct (UseAI.type_is image attachment).
  - destruct (Js.truthy (VITE_GEMINI_API_KEY env)); cbn [negb].
    + destruct (generateContent _ _ _) as [e|t]; cbn; [|reflexivity].
      split; [reflexivity|]. intros H. injection H as H.
      now apply or_else_non_empty in H.
    + cbn. split; [reflexivity | discriminate].
  - destruct (Js.truthy (VITE_GROQ_API_KEY env)); cbn [negb].
    + destruct (groq_create _ _) as [e|content].
      * apply Hblock. reflexivity.
      * destruct (Js.truthy content); cbn [negb]; [reflexivity|].
        apply Hblock. reflexivity.
    + apply Hblock. reflexivity.
Qed.

(** X3.  useAI, a request with an image: the conversation history is
    not used; the same call with any other history makes the same
    request and ends the same way. *)
Theorem image_route_ignores_history (subjectValue : Subject -> string) (env : Env)
    (text : string) (subject : Subject) (history1 history2 : list Message.t)
    (attachment : option Attachment.t) (w : World) :
  UseAI.type_is image attachment = true ->
  UseAI.sendMessage subjectValue env text subject history1 attachment w
  = UseAI.sendMessage subjectValue env text subject history2 attachment w.
Proof.
  intros Himg. run_hook. rewrite Himg. reflexivity.
Qed.

Lemma image_route_ignores_history_notes :
  UseAI.sendMessage Demo.subjectValue Demo.groq_down "What is this?" PHYSICS
    [Demo.with_notes] (Some Demo.photo) (start Demo.idle)
  = UseAI.sendMessage Demo.subjectValue Demo.groq_down "What is this?" PHYSICS
      [] (Some Demo.photo) (start Demo.idle).
Proof.
  apply (image_route_ignores_history Demo.subjectValue Demo.groq_down "What is this?"
           PHYSICS [Demo.with_notes] [] (Some Demo.photo) (start Demo.idle)).
  reflexivity.
Defined.

(** X4.  useAI: every provider request and every back-off wait of a
    call happens while [isLoading] is true, whatever it was before. *)
Theorem useAI_busy_throughout (subjectValue : Subject -> string) (env : Env)
    (text : string) (subject : Subject) (previousMessages : list Message.t)
    (attachment : option Attachment.t) (st : ReactState) :
  busy_throughout (isLoading st)
    (trace (snd (UseAI.sendMessage subjectValue env text subject previousMessages
                   attachment (start st))))
  = true.
Proof.
  assert (Hblock :
    forall w,
      busy_throughout (isLoading st) (trace w) = true ->
      loading_after (isLoading st) (trace w) = true ->
      busy_throughout (isLoading st)
        (trace (snd (
           let (c, w') :=
             (if negb (Js.truthy (VITE_GEMINI_API_KEY env))
              then fun w : World => (Throw (Js.new_Error "Gemini API Key missing"), w)
              else retry_loop env 1 "Server busy. Retrying backup connection..." None
                     "Max retries exceeded on fallback."
                     (UseAI.fallbackChat subjectValue subject previousMessages)
                     (UseAI.fallbackPrompt text attachment) 0) w in
           match c with
           | Normal a => (Normal a, w')
           | Throw e =>
               (Throw e,
                set_error (Some (Js.or_else (Js.message e)
                                   "All AI services are currently busy.")) w')
           end))) = true).
  { intros w Hb Hl.
    destruct (Js.truthy (VITE_GEMINI_API_KEY env)); cbn [negb].
    - pose proof (retry_loop_busy env "Server busy. Retrying backup connection..."
                    None "Max retries exceeded on fallback."
                    (UseAI.fallbackChat subjectValue subject previousMessages)
                    (UseAI.fallbackPrompt text attachment) w (isLoading st) Hb Hl)
        as [Hb' Hl'].
      destruct (retry_loop _ _ _ _ _ _ _ _ _) as [[t|e] w']; cbn [snd set_error trace] in *.
      + exact Hb'.
      + rewrite busy_throughout_app, Hb'. reflexivity.
    - cbn [snd set_error trace]. rewrite busy_throughout_app, Hb. reflexivity. }
  run_hook.
  destruct (UseAI.type_is image attachment).
  - destruct (Js.truthy (VITE_GEMINI_API_KEY env)); cbn [negb]; [|reflexivity].
    destruct (generateContent _ _ _); reflexivity.
  - destruct (Js.truthy (VITE_GROQ_API_KEY env)); cbn [negb].
    + destruct (groq_create _ _) as [e|content].
      * apply Hblock; reflexivity.
      * destruct (Js.truthy content); cbn [negb]; [reflexivity|].
        apply Hblock; reflexivity.
    + apply Hblock; reflexivity.
Qed.

(** ** useGemini *)

(** X5.  useGemini: every request and every wait of a call happens
    while [isLoading] is true, and every call, returning or throwing,
    ends with [isLoading] false and the status cleared. *)
Theorem useGemini_busy_then_idle (subjectValue : Subject -> string) (env : Env)
    (text : string) (subject : Subject) (previousMessages : list Message.t)
    (st : ReactState) :
  let run := UseGemini.sendMessage subjectValue env text subject previousMessages
               (start st) in
  busy_throughout (isLoading st) (trace (snd run)) = true
  /\ isLoading (react (snd run)) = false
  /\ statusMessage (react (snd run)) = None.
Proof.
  cbv zeta. run_hook.
  destruct (Js.truthy (VITE_GEMINI_API_KEY env)); cbn [negb];
    [|repeat split].
  pose proof (retry_loop_busy env "Server is busy (High Traffic). Retrying in 3 seconds..."
                (Some "Retrying now...") "Max retries exceeded."
                (UseGemini.chatSession subjectValue subject previousMessages) text
                (set_statusMessage None
                   (set_error None (set_isLoading true {| react := st; trace := [] |})))
                (isLoading st) eq_refl eq_refl) as [Hb Hl].
  destruct (retry_loop _ _ _ _ _ _ _ _ _) as [[t|e] w'];
    cbn [fst snd set_error set_statusMessage set_isLoading trace react isLoading
         statusMessage] in *.
  - split; [|split; reflexivity].
    rewrite <- app_assoc, busy_throughout_app, Hb. reflexivity.
  - split; [|split; reflexivity].
    rewrite <- !app_assoc, busy_throughout_app, Hb. reflexivity.
Qed.

(** X6.  useGemini: [error] is set exactly when [sendMessage] throws:
    a call that returns leaves it cleared, a call that throws leaves the
    message of the thrown error in it, or ["Failed to communicate with
    Gemini."] when the error has no message. *)
Theorem useGemini_error_state (subjectValue : Subject -> string) (env : Env)
    (text : string) (subject : Subject) (previousMessages : list Message.t)
    (st : ReactState) :
  let run := UseGemini.sendMessage subjectValue env text subject previousMessages
               (start st) in
  match fst run with
  | Normal _ => error (react (snd run)) = None
  | Throw e =>
      error (react (snd run))
      = Some (Js.or_else (Js.message e) "Failed to communicate with Gemini.")
  end.
Proof.
  cbv zeta. run_hook.
  destruct (Js.truthy (VITE_GEMINI_API_KEY env)); cbn [negb]; [|reflexivity].
  pose proof (retry_loop_error env 1
                "Server is busy (High Traffic). Retrying in 3 seconds..."
                (Some "Retrying now...") "Max retries exceeded."
                (UseGemini.chatSession subjectValue subject previousMessages) text 0
                (set_statusMessage None
                   (set_error None (set_isLoading true {| react := st; trace := [] |}))))
    as Hloop.
  destruct (retry_loop _ _ _ _ _ _ _ _ _) as [[t|e] w']; cbn in *; congruence.
Qed.

(** X7.  useGemini without a credential: the call throws the
    configuration error and records its message, with no request to the
    provider and no wait. *)
Theorem useGemini_missing_key (subjectValue : Subject -> string) (env : Env)
    (text : string) (subject : Subject) (previousMessages : list Message.t)
    (st : ReactState) :
  Js.truthy (VITE_GEMINI_API_KEY env) = false ->
  let run := UseGemini.sendMessage subjectValue env text subject previousMessages
               (start st) in
  fst run
  = Throw (Js.new_Error "Gemini API Key is not configured (VITE_GEMINI_API_KEY missing).")
  /\ error (react (snd run))
     = Some "Gemini API Key is not configured (VITE_GEMINI_API_KEY missing)."
  /\ chat_requests (trace (snd run)) = 0
  /\ sleeps (trace (snd run)) = 0.
Proof.
  intros Hkey. cbv zeta. run_hook. rewrite Hkey. repeat split.
Qed.

Lemma useGemini_missing_key_demo :
  fst (UseGemini.sendMessage Demo.subjectValue Demo.no_gemini_key "2x = 4" MATH []
         (start Demo.idle))
  = Throw (Js.new_Error "Gemini API Key is not configured (VITE_GEMINI_API_KEY missing).").
Proof.
  apply (useGemini_missing_key Demo.subjectValue Demo.no_gemini_key "2x = 4" MATH []
           Demo.idle).
  reflexivity.
Defined.

(** X8.  useGemini, a first request that fails rate-limited and a
    second that is answered: the call returns the answer after two
    requests and one wait of 3000 ms, with the two statuses of the retry
    set in between and cleared at the end. *)
Theorem useGemini_retry_once (subjectValue : Subject -> string) (env : Env)
    (text : string) (subject : Subject) (previousMessages : list Message.t)
    (st : ReactState) (e : Js.Error) (t : string) :
  Js.truthy (VITE_GEMINI_API_KEY env) = true ->
  let chat := UseGemini.chatSession subjectValue subject previousMessages in
  chat_sendMessage env 0 chat text = inl e ->
  is429 e = true ->
  chat_sendMessage env 1 chat text = inr t ->
  UseGemini.sendMessage subjectValue env text subject previousMessages (start st)
  = (Normal t,
     {| react := {| isLoading := false; error := None; statusMessage := None |};
        trace :=
          [SetIsLoading true; SetError None; SetStatusMessage None;
           ChatSendMessage chat text;
           SetStatusMessage
             (Some "Server is busy (High Traffic). Retrying in 3 seconds...");
           Sleep 3000;
           SetStatusMessage (Some "Retrying now...");
           ChatSendMessage chat text;
           SetIsLoading false; SetStatusMessage None] |}).
Proof.
  intros Hkey chat H0 H429 H1. run_hook. rewrite Hkey. cbn [negb].
  rewrite (retry_loop_backs_off env 1 _ _ _ chat text 0 _ e)
    by (try exact H0; try exact H429; lia).
  rewrite (retry_loop_returns env 1 _ _ _ chat text 1 _ t)
    by (try exact H1; lia).
  reflexivity.
Qed.

Lemma useGemini_retry_once_demo :
  fst (UseGemini.sendMessage Demo.subjectValue Demo2.recovering "2x = 4" MATH []
         (start Demo.idle))
  = Normal "x = 2".
Proof.
  rewrite (useGemini_retry_once Demo.subjectValue Demo2.recovering "2x = 4" MATH []
             Demo.idle Demo.rateLimited "x = 2").
  - reflexivity.
  - reflexivity.
  - reflexivity.
  - reflexivity.
  - reflexivity.
Defined.

(** ** useAI, the text-only variant *)

Ltac run_text_hook := unfold UseAI2.sendMessage; run_hook.

(** Finds the loop of the fallback in the goal and replaces it by its
    outcome, for a fallback that answers or fails within its budget. *)
Ltac fallback_outcome H :=
  match goal with
  | |- context [retry_loop ?e 1 ?b ?r ?x ?c ?m 0 ?w] =>
      first
        [ destruct (fallback_answers_run e b r x c m w _ eq_refl H) as [? ->]
        | destruct (fallback_fails_run e b r x c m w _ eq_refl H) as [? ->] ]
  end.

(** X9.  The text-only useAI walks the chain Groq, then Gemini: a
    non-empty answer of Groq is returned without a request to the
    fallback; when Groq fails in any way, the answer of the fallback
    within its retry budget is returned; when the fallback fails too,
    its last error is thrown and recorded; and without a Gemini
    credential the configuration error is thrown. *)
Theorem useAI2_chain (subjectValue : Subject -> string) (env : Env)
    (text : string) (subject : Subject) (previousMessages : list Message.t)
    (st : ReactState) :
  let req := UseAI2.groqRequest subjectValue text subject previousMessages in
  let chat := UseAI2.fallbackChat subjectValue subject previousMessages in
  let run := UseAI2.sendMessage subjectValue env text subject previousMessages
               (start st) in
  (forall r,
     primary_answers env req r ->
     fst run = Normal r /\ chat_requests (trace (snd run)) = 0)
  /\ (primary_fails env req ->
      (Js.truthy (VITE_GEMINI_API_KEY env) = true ->
       (forall t, fallback_answers env chat text t -> fst run = Normal t)
       /\ (forall e,
             fallback_fails env chat text e ->
             fst run = Throw e
             /\ error (react (snd run))
                = Some (Js.or_else (Js.message e)
                          "All AI services are currently busy.")))
      /\ (Js.truthy (VITE_GEMINI_API_KEY env) = false ->
          fst run = Throw (Js.new_Error "Gemini API Key missing")
          /\ chat_requests (trace (snd run)) = 0)).
Proof.
  intros req chat run. subst run req chat. split.
  - intros r (Hkey & Hans & Hne). run_text_hook. rewrite Hkey, Hans.
    destruct r as [|c r]; [now elim Hne|]. split; reflexivity.
  - intros Hfail. split.
    + intros Hgem. split.
      * intros t Hfb. run_text_hook. rewrite Hgem. cbn [negb].
        destruct (Js.truthy (VITE_GROQ_API_KEY env)) eqn:Hkey; cbn [negb].
        -- destruct Hfail as [Hno | [(e & Herr) | (content & Hans & Hempty)]].
           ++ congruence.
           ++ rewrite Herr. fallback_outcome Hfb. reflexivity.
           ++ rewrite Hans, Hempty. cbn [negb]. fallback_outcome Hfb. reflexivity.
        -- fallback_outcome Hfb. reflexivity.
      * intros e Hfb. run_text_hook. rewrite Hgem. cbn [negb].
        destruct (Js.truthy (VITE_GROQ_API_KEY env)) eqn:Hkey; cbn [negb].
        -- destruct Hfail as [Hno | [(e' & Herr) | (content & Hans & Hempty)]].
           ++ congruence.
           ++ rewrite Herr. fallback_outcome Hfb. split; reflexivity.
           ++ rewrite Hans, Hempty. cbn [negb]. fallback_outcome Hfb.
              split; reflexivity.
        -- fallback_outcome Hfb. split; reflexivity.
    + intros Hgem. run_text_hook. rewrite Hgem. cbn [negb].
      destruct (Js.truthy (VITE_GROQ_API_KEY env)) eqn:Hkey; cbn [negb].
      * destruct Hfail as [Hno | [(e' & Herr) | (content & Hans & Hempty)]].
        -- congruence.
        -- rewrite Herr. split; reflexivity.
        -- rewrite Hans, Hempty. cbn [negb]. split; reflexivity.
      * split; reflexivity.
Qed.

Lemma useAI2_chain_recovering :
  fst (UseAI2.sendMessage Demo.subjectValue Demo2.recovering "2x = 4" MATH []
         (start Demo.idle))
  = Normal "x = 2".
Proof.
  apply (useAI2_chain Demo.subjectValue Demo2.recovering "2x = 4" MATH [] Demo.idle).
  - right. left. exists Demo.forbidden. reflexivity.
  - reflexivity.
  - right. exists Demo.rateLimited. repeat split.
Defined.

(** X10.  The text-only useAI: every request and every wait of a call
    happens while [isLoading] is true, and every call, returning or
    throwing, ends with [isLoading] false and the status cleared. *)
Theorem useAI2_busy_then_idle (subjectValue : Subject -> string) (env : Env)
    (text : string) (subject : Subject) (previousMessages : list Message.t)
    (st : ReactState) :
  let run := UseAI2.sendMessage subjectValue env text subject previousMessages
               (start st) in
  busy_throughout (isLoading st) (trace (snd run)) = true
  /\ isLoading (react (snd run)) = false
  /\ statusMessage (react (snd run)) = None.
Proof.
  cbv zeta.
  assert (Hblock :
    forall w,
      busy_throughout (isLoading st) (trace w) = true ->
      loading_after (isLoading st) (trace w) = true ->
      busy_throughout (isLoading st)
        (trace (snd (
           let (c, w') :=
             (if negb (Js.truthy (VITE_GEMINI_API_KEY env))
              then fun w : World => (Throw (Js.new_Error "Gemini API Key missing"), w)
              else retry_loop env 1 "Server busy. Retrying backup connection..." None
                     "Max retries exceeded on fallback."
                     (UseAI2.fallbackChat subjectValue subject previousMessages)
                     text 0) w in
           match c with
           | Normal a => (Normal a, w')
           | Throw e =>
               (Throw e,
                set_error (Some (Js.or_else (Js.message e)
                                   "All AI services are currently busy.")) w')
           end))) = true).
  { intros w Hb Hl.
    destruct (Js.truthy (VITE_GEMINI_API_KEY env)); cbn [negb].
    - pose proof (retry_loop_busy env "Server busy. Retrying backup connection..."
                    None "Max retries exceeded on fallback."
                    (UseAI2.fallbackChat subjectValue subject previousMessages)
                    text w (isLoading st) Hb Hl) as [Hb' Hl'].
      destruct (retry_loop _ _ _ _ _ _ _ _ _) as [[t|e] w'];
        cbn [snd set_error trace] in *.
      + exact Hb'.
      + rewrite busy_throughout_app, Hb'. reflexivity.
    - cbn [snd set_error trace]. rewrite busy_throughout_app, Hb. reflexivity. }
  assert (Hfin :
    forall r : Completion string * World,
      busy_throughout (isLoading st) (trace (snd r)) = true ->
      let run := (let (c, w') := r in
                  (c, set_statusMessage None (set_isLoading false w'))) in
      busy_throughout (isLoading st) (trace (snd run)) = true
      /\ isLoading (react (snd run)) = false
      /\ statusMessage (react (snd run)) = None).
  { intros [c w'] Hb. cbn [snd set_statusMessage set_isLoading trace] in *.
    split; [|split; reflexivity].
    rewrite <- app_assoc, busy_throughout_app, Hb. reflexivity. }
  run_text_hook.
  destruct (Js.truthy (VITE_GROQ_API_KEY env)); cbn [negb].
  - destruct (groq_create _ _) as [e|content].
    + apply Hfin. apply Hblock; reflexivity.
    + destruct (Js.truthy content); cbn [negb]; [repeat split|].
      apply Hfin. apply Hblock; reflexivity.
  - apply Hfin. apply Hblock; reflexivity.
Qed.

(** ** The hooks on the @google/genai client *)

(** X11.  [generateTutorResponse] never throws and never returns the
    empty string: whatever the provider does, the caller gets a
    non-empty text (the answer, or one of three fixed messages).  It
    makes at most one request, and none when the credential is missing. *)
Theorem generateTutorResponse_always_text (subjectValue : Subject -> string)
    (env : GenAI.Env) (prompt : string) (subject : Subject)
    (history : list GeminiTurn.t) (reqs : list GenAI.Request) :
  let run := Service.generateTutorResponse subjectValue env prompt subject history reqs in
  (exists s, fst run = Normal s /\ s <> "")
  /\ (exists new, snd run = (reqs ++ new)%list /\ length new <= 1)
  /\ (Js.truthy (GenAI.API_KEY env) = false ->
      run = (Normal "Error: API_KEY is missing in environment variables.", reqs)).
Proof.
  cbv zeta. unfold Service.generateTutorResponse.
  destruct (Js.truthy (GenAI.API_KEY env)); cbn [negb].
  - unfold GenAI.try_catch, GenAI.bind, GenAI.ret, Service.send.
    destruct (GenAI.chat_sendMessage env _ prompt) as [e|t]; cbn [fst snd].
    + split; [eexists; split; [reflexivity | discriminate]|].
      split; [eexists; split; [reflexivity | simpl; lia]|].
      intros H. discriminate H.
    + split.
      * eexists. split; [reflexivity|]. apply or_else_non_empty. discriminate.
      * split; [eexists; split; [reflexivity | simpl; lia]|].
        intros H. discriminate H.
  - unfold GenAI.ret. cbn [fst snd].
    split; [eexists; split; [reflexivity | discriminate]|].
    split; [exists []; split; [now rewrite app_nil_r | simpl; lia]|].
    reflexivity.
Qed.

Lemma generateTutorResponse_always_text_no_key :
  Service.generateTutorResponse Demo.subjectValue Demo2.no_api_key "2x = 4" MATH [] []
  = (Normal "Error: API_KEY is missing in environment variables.", []).
Proof.
  apply (generateTutorResponse_always_text Demo.subjectValue Demo2.no_api_key "2x = 4"
           MATH [] []).
  reflexivity.
Defined.

(** X12.  The useGemini without retry makes one request at most (none
    without a credential) and never a second one, whatever the error of
    the first; every call ends with [isLoading] false; [error] is
    cleared by a call that returns and holds the message of the thrown
    error, or the default text, after a call that throws. *)
Theorem useGemini2_single_attempt (subjectValue : Subject -> string)
    (env : GenAI.Env) (text : string) (subject : Subject)
    (previousMessages : list Message.t) (w : GenAI.World) :
  let run := UseGemini2.sendMessage subjectValue env text subject previousMessages w in
  GenAI.isLoading (snd run) = false
  /\ GenAI.requests (snd run)
     = (GenAI.requests w
        ++ if Js.truthy (GenAI.API_KEY env)
           then [{| GenAI.chat :=
                      UseGemini2.chatParams subjectValue subject previousMessages;
                    GenAI.message := text |}]
           else [])%list
  /\ match fst run with
     | Normal _ => GenAI.error (snd run) = None
     | Throw e =>
         GenAI.error (snd run)
         = Some (Js.or_else (Js.message e) "Failed to communicate with Gemini.")
     end.
Proof.
  cbv zeta.
  unfold UseGemini2.sendMessage, GenAI.try_finally, GenAI.try_catch, GenAI.bind,
    GenAI.ret, GenAI.throw, UseGemini2.setIsLoading, UseGemini2.setError,
    UseGemini2.send.
  cbn [GenAI.isLoading GenAI.error GenAI.requests].
  destruct (Js.truthy (GenAI.API_KEY env)); cbn [negb].
  - destruct (GenAI.chat_sendMessage env _ text) as [e|t]; cbn; repeat split.
  - cbn. rewrite app_nil_r. repeat split.
Qed.

(** X13.  The useGemini without retry returns the text of the answer,
    and the empty string when the answer has no text; an error of the
    provider, rate-limited or not, is thrown at once. *)
Theorem useGemini2_outcome (subjectValue : Subject -> string)
    (env : GenAI.Env) (text : string) (subject : Subject)
    (previousMessages : list Message.t) (w : GenAI.World) :
  Js.truthy (GenAI.API_KEY env) = true ->
  let params := UseGemini2.chatParams subjectValue subject previousMessages in
  let run := UseGemini2.sendMessage subjectValue env text subject previousMessages w in
  match GenAI.chat_sendMessage env params text with
  | inr (Some t) => fst run = Normal t
  | inr None => fst run = Normal ""
  | inl e => fst run = Throw e
  end.
Proof.
  intros Hkey. cbv zeta.
  unfold UseGemini2.sendMessage, GenAI.try_finally, GenAI.try_catch, GenAI.bind,
    GenAI.ret, GenAI.throw, UseGemini2.setIsLoading, UseGemini2.setError,
    UseGemini2.send.
  rewrite Hkey. cbn [negb].
  destruct (GenAI.chat_sendMessage env _ text) as [e|[[|c t]|]]; reflexivity.
Qed.

Lemma useGemini2_outcome_throttled :
  fst (UseGemini2.sendMessage Demo.subjectValue Demo2.genai_throttled "2x = 4" MATH []
         {| GenAI.isLoading := false; GenAI.error := None; GenAI.requests := [] |})
  = Throw Demo.rateLimited.
Proof.
  apply (useGemini2_outcome Demo.subjectValue Demo2.genai_throttled "2x = 4" MATH []
           {| GenAI.isLoading := false; GenAI.error := None; GenAI.requests := [] |}).
  reflexivity.
Defined.

(** ** The math markup *)

Lemma includes_char_app (c : ascii) (a b : string) :
  Js.includes (String c "") (a ++ b)
  = Js.includes (String c "") a || Js.includes (String c "") b.
Proof.
  assert (Hempty : forall s, String.prefix "" s = true) by (intros []; reflexivity).
  induction a as [|d a IH]; [reflexivity|].
  change (String.prefix (String c "") (String d (a ++ b))
          || Js.includes (String c "") (a ++ b)
          = (String.prefix (String c "") (String d a) || Js.includes (String c "") a)
            || Js.includes (String c "") b).
  rewrite IH. cbn [String.prefix].
  destruct (ascii_dec c d); [now rewrite !Hempty | reflexivity].
Qed.

(** X14.  A subject outside MATH, PHYSICS and CHEMISTRY whose name has
    no dollar sign gets a system instruction without any dollar sign,
    from [sendMessage] as from [getSystemInstruction]: the math
    delimiters are given to the quantitative subjects only. *)
Theorem math_markup_only_when_quantitative (subjectValue : Subject -> string)
    (s : Subject) :
  UseAI.quantitative subjectValue s = false ->
  Js.includes "$" (subjectValue s) = false ->
  Js.includes "$" (UseAI.systemInstruction subjectValue s) = false
  /\ Js.includes "$" (GeminiService.getSystemInstruction subjectValue s) = false.
Proof.
  intros Hq Hname. split.
  - unfold UseAI.systemInstruction. rewrite Hq. cbv zeta.
    rewrite !includes_char_app, Hname. reflexivity.
  - unfold GeminiService.getSystemInstruction.
    assert (Hsame : GeminiService.same subjectValue s MATH
                    || GeminiService.same subjectValue s PHYSICS
                    || GeminiService.same subjectValue s CHEMISTRY = false).
    { unfold UseAI.quantitative in Hq. simpl in Hq. unfold GeminiService.same.
      rewrite orb_false_r in Hq. rewrite <- orb_assoc. exact Hq. }
    rewrite Hsame. cbv zeta.
    destruct (GeminiService.same subjectValue s CODING);
      rewrite !includes_char_app, Hname; reflexivity.
Qed.

Lemma math_markup_only_when_quantitative_coding :
  Js.includes "$" (UseAI.systemInstruction Demo.subjectValue CODING) = false.
Proof.
  apply (math_markup_only_when_quantitative Demo.subjectValue CODING).
  - reflexivity.
  - reflexivity.
Defined.

(** ** The status of useAI *)

Lemma statuses_app (tr1 tr2 : list Event) :
  statuses (tr1 ++ tr2) = (statuses tr1 ++ statuses tr2)%list.
Proof.
  induction tr1 as [|ev tr1 IH]; simpl; [reflexivity|].
  destruct ev; simpl; rewrite IH; reflexivity.
Qed.

(** X15.  useAI sets the status in one of four sequences and no other:
    cleared and nothing more, cleared then the image notice, cleared
    then the switch to the backup, or cleared, the switch and then the
    retry notice; the retry notice never comes without the switch
    before it, and no path clears the status at the end. *)
Theorem useAI_status_sequence (subjectValue : Subject -> string) (env : Env)
    (text : string) (subject : Subject) (previousMessages : list Message.t)
    (attachment : option Attachment.t) (st : ReactState) :
  In (statuses (trace (snd (UseAI.sendMessage subjectValue env text subject
                              previousMessages attachment (start st)))))
     [[None];
      [None; Some "Analyzing image..."];
      [None; Some "Traffic high. Switching to backup AI..."];
      [None; Some "Traffic high. Switching to backup AI...";
       Some "Server busy. Retrying backup connection..."]].
Proof.
  assert (Hblock :
    forall w,
      statuses (trace w) = [None; Some "Traffic high. Switching to backup AI..."] ->
      In (statuses (trace (snd (
            let (c, w') :=
              (if negb (Js.truthy (VITE_GEMINI_API_KEY env))
               then fun w : World => (Throw (Js.new_Error "Gemini API Key missing"), w)
               else retry_loop env 1 "Server busy. Retrying backup connection..." None
                      "Max retries exceeded on fallback."
                      (UseAI.fallbackChat subjectValue subject previousMessages)
                      (UseAI.fallbackPrompt text attachment) 0) w in
            match c with
            | Normal a => (Normal a, w')
            | Throw e =>
                (Throw e,
                 set_error (Some (Js.or_else (Js.message e)
                                    "All AI services are currently busy.")) w')
            end))))
         [[None];
          [None; Some "Analyzing image..."];
          [None; Some "Traffic high. Switching to backup AI..."];
          [None; Some "Traffic high. Switching to backup AI...";
           Some "Server busy. Retrying backup connection..."]]).
  { intros w Hw.
    destruct (Js.truthy (VITE_GEMINI_API_KEY env)); cbn [negb].
    - destruct (retry_loop_run env 1 "Server busy. Retrying backup connection..." None
                  "Max retries exceeded on fallback."
                  (UseAI.fallbackChat subjectValue subject previousMessages)
                  (UseAI.fallbackPrompt text attachment) 0 w)
        as (k & Hk & Htr & _); [lia|].
      destruct (retry_loop _ _ _ _ _ _ _ _ _) as [[t|e] w'];
        cbn [snd set_error trace] in *; rewrite Htr;
        rewrite ?statuses_app, Hw;
        destruct k as [|[|k]]; try lia; cbn; auto.
    - cbn [snd set_error trace]. rewrite statuses_app, Hw. cbn. auto. }
  run_hook.
  destruct (UseAI.type_is image attachment).
  - destruct (Js.truthy (VITE_GEMINI_API_KEY env)); cbn [negb].
    + destruct (generateContent _ _ _); cbn; auto.
    + cbn. auto.
  - destruct (Js.truthy (VITE_GROQ_API_KEY env)); cbn [negb].
    + destruct (groq_create _ _) as [e|content].
      * apply Hblock. reflexivity.
      * destruct (Js.truthy content); cbn [negb]; [cbn; auto|].
        apply Hblock. reflexivity.
    + apply Hblock. reflexivity.
Qed.

(** ** The transcript of useVoice *)

Lemma scan_final (rs : list UseVoice.SpeechResult) (finalTrans interimTrans : string) :
  fst (UseVoice.scan rs finalTrans interimTrans)
  = finalTrans
    ++ String.concat "" (map UseVoice.transcript (filter UseVoice.isFinal rs)).
Proof.
  revert finalTrans interimTrans.
  induction rs as [|r rs IH]; intros finalTrans interimTrans; simpl.
  - clear. induction finalTrans as [|c s IH]; simpl; [reflexivity | now rewrite <- IH].
  - destruct (UseVoice.isFinal r); rewrite IH; [|reflexivity].
    rewrite append_assoc. f_equal.
    simpl. destruct (map UseVoice.transcript (filter UseVoice.isFinal rs)) as [|t ts] eqn:Hts.
    + simpl. clear. induction (UseVoice.transcript r) as [|c s IH]; simpl;
        [reflexivity | now rewrite IH].
    + reflexivity.
Qed.

(** X16.  The result handler of useVoice extends the transcript by the
    final results of the event from [resultIndex] on, joined in order
    and followed by one space; interim results and the results before
    [resultIndex] never reach it, and an event without final text
    leaves the transcript as it is. *)
Theorem onresult_appends_final_text (event : UseVoice.SpeechEvent) (prev : string) :
  UseVoice.onresult event prev
  = if String.eqb (UseVoice.final_text event) ""
    then prev
    else prev ++ UseVoice.final_text event ++ " ".
Proof.
  unfold UseVoice.onresult, UseVoice.final_text.
  rewrite scan_final. cbn [append].
  destruct (String.concat "" _); reflexivity.
Qed.

(** ** The two histories of useAI *)

Lemma append_empty (s : string) : s ++ "" = s.
Proof. induction s as [|c s IH]; simpl; [reflexivity | now rewrite IH]. Qed.

(** X17.  On a history in which no message carries a text file, the
    Groq history and the Gemini history of the fallback hold the same
    text turn for turn, so both providers read the same conversation. *)
Theorem histories_agree_without_files (previousMessages : list Message.t) :
  (forall msg, In msg previousMessages ->
               UseAI.type_is text (Message.attachment msg) = false) ->
  map GroqMessage.content (UseAI.groqHistory previousMessages)
  = map (fun turn => String.concat "" (GeminiTurn.parts turn))
        (UseAI.geminiHistory previousMessages).
Proof.
  intros Hnone. unfold UseAI.groqHistory, UseAI.geminiHistory.
  rewrite !map_map. apply map_ext_in.
  intros msg Hin. cbn. rewrite (Hnone msg Hin). apply append_empty.
Qed.

Lemma histories_agree_without_files_plain :
  map GroqMessage.content
      (UseAI.groqHistory [{| Message.role := USER; Message.content := "2x = 4";
                             Message.attachment := Some Demo.photo |}])
  = ["2x = 4"].
Proof.
  rewrite (histories_agree_without_files
             [{| Message.role := USER; Message.content := "2x = 4";
                 Message.attachment := Some Demo.photo |}]).
  - reflexivity.
  - intros msg [<- | []]. reflexivity.
Defined.
